(** * The sentiment pipeline of [app.py]

    A shallow embedding of the two pipeline functions of the Streamlit
    application, [get_sentiment] and [generate_sentiment_aligned_text],
    together with their example banks, the [tenacity] retry decorator and
    the [st.cache_data] memoisation that wrap them.

    Python strings are sequences of Unicode code points, so [len], [strip],
    [upper], [lower] and [replace] are modelled on lists of code points and
    not on bytes.  Effects (remote calls, [st.error], [time.sleep], the
    cache) are threaded through an explicit state. *)

From Stdlib Require Import ZArith NArith List String Ascii Lia Bool DecimalString.
From Stdlib Require DecimalFacts DecimalPos.
From stdpp Require Import gmap.
Import ListNotations.

Set Warnings "-register-all".

Local Open Scope N_scope.

(** ** Python strings *)

(** A [str] is a list of code points. *)
Abbreviation str := (list N).

(** Source literals are written as UTF-8 text and decoded to code points. *)
Fixpoint utf8_decode (bs : list N) : str :=
  match bs with
  | [] => []
  | b0 :: r0 =>
      if b0 <? 128 then b0 :: utf8_decode r0
      else match r0 with
           | [] => [b0]
           | b1 :: r1 =>
               if b0 <? 224 then ((b0 - 192) * 64 + (b1 - 128)) :: utf8_decode r1
               else match r1 with
                    | [] => [b0; b1]
                    | b2 :: r2 =>
                        if b0 <? 240
                        then ((b0 - 224) * 4096 + (b1 - 128) * 64 + (b2 - 128))
                               :: utf8_decode r2
                        else match r2 with
                             | [] => [b0; b1; b2]
                             | b3 :: r3 =>
                                 ((b0 - 240) * 262144 + (b1 - 128) * 4096
                                  + (b2 - 128) * 64 + (b3 - 128)) :: utf8_decode r3
                             end
                    end
           end
  end.

Definition lit (s : string) : str :=
  utf8_decode (map (fun b => N_of_ascii (ascii_of_byte b)) (list_byte_of_string s)).
Arguments lit s%_string.

(** The double quote, which the literals below splice in between pieces. *)
Definition DQ : str := [34].

Fixpoint str_eqb (a b : str) : bool :=
  match a, b with
  | [], [] => true
  | x :: a', y :: b' => (x =? y) && str_eqb a' b'
  | _, _ => false
  end.

(** [str.isspace] for one code point: the whitespace table of CPython. *)
Definition is_space (c : N) : bool :=
  ((9 <=? c) && (c <=? 13)) || ((28 <=? c) && (c <=? 32))
  || (c =? 133) || (c =? 160) || (c =? 5760)
  || ((8192 <=? c) && (c <=? 8202))
  || (c =? 8232) || (c =? 8233) || (c =? 8239) || (c =? 8287) || (c =? 12288).

Fixpoint lstrip (s : str) : str :=
  match s with
  | [] => []
  | c :: s' => if is_space c then lstrip s' else s
  end.

Definition rstrip (s : str) : str := rev (lstrip (rev s)).

(** [s.strip()] *)
Definition strip (s : str) : str := rstrip (lstrip s).

Fixpoint starts_with (p s : str) : bool :=
  match p, s with
  | [], _ => true
  | x :: p', y :: s' => (x =? y) && starts_with p' s'
  | _ :: _, [] => false
  end.

(** [s.replace(old, new)]: every non-overlapping occurrence, left to right.
    [skip] counts the code points of a matched occurrence still to drop. *)
Fixpoint replace_from (old new : str) (skip : nat) (s : str) : str :=
  match s with
  | [] => []
  | c :: s' =>
      match skip with
      | S k => replace_from old new k s'
      | O => if starts_with old s
             then new ++ replace_from old new (Nat.pred (length old)) s'
             else c :: replace_from old new O s'
      end
  end.

Definition replace (old new s : str) : str :=
  match old with
  | [] => new ++ flat_map (fun c => c :: new) s
  | _ :: _ => replace_from old new O s
  end.

(** [needle in s] *)
Fixpoint contains (needle s : str) : bool :=
  starts_with needle s ||
  match s with
  | [] => false
  | _ :: s' => contains needle s'
  end.

Definition ascii_upper (c : N) : N :=
  if (97 <=? c) && (c <=? 122) then c - 32 else c.

Definition ascii_lower (c : N) : N :=
  if (65 <=? c) && (c <=? 90) then c + 32 else c.

(** [str(n)] for an [int], as the f-strings format it: the decimal numeral.
    CPython formats an [int] of at most [sys.get_int_max_str_digits()]
    digits, 4300 unless configured otherwise, and raises [ValueError] for a
    longer one; [str_of_int] is the formatting within that limit, and
    [formattable] says that an integer is within it (the sign is not
    counted).  Beyond the limit the code raises where [str_of_int] still
    answers a numeral, so what is stated of the prompt and of the generator
    is stated of the code for a formattable word count; the page's slider
    gives 50 to 500. *)
Definition str_of_int (n : Z) : str :=
  lit (NilZero.string_of_int (Z.to_int n)).

(** [sys.get_int_max_str_digits()] *)
Definition int_max_str_digits : Z := 4300.

Definition formattable (n : Z) : Prop := (Z.abs n < 10 ^ int_max_str_digits)%Z.

(** ** JSON values, as [json.loads] returns them *)

Inductive json : Type :=
| JNull
| JBool (b : bool)
| JInt (n : Z)
| JFloat (literal : str)
| JStr (s : str)
| JList (items : list json)
| JDict (items : list (str * json)).

(** [d.get(key)] on a Python [dict] kept as an association list. *)
Fixpoint dict_get (d : list (str * json)) (key : str) : option json :=
  match d with
  | [] => None
  | (k, v) :: d' => if str_eqb k key then Some v else dict_get d' key
  end.

(** [d[key] = v]: an existing key keeps its position. *)
Fixpoint dict_set (d : list (str * json)) (key : str) (v : json) : list (str * json) :=
  match d with
  | [] => [(key, v)]
  | (k, w) :: d' => if str_eqb k key then (k, v) :: d' else (k, w) :: dict_set d' key v
  end.

(** [type(v).__name__] *)
Definition type_name (v : json) : str :=
  match v with
  | JNull => lit "NoneType"
  | JBool _ => lit "bool"
  | JInt _ => lit "int"
  | JFloat _ => lit "float"
  | JStr _ => lit "str"
  | JList _ => lit "list"
  | JDict _ => lit "dict"
  end.

(** ** The Python runtime

    Three pieces of the runtime are data or code outside the repository: the
    Unicode case tables behind [str.upper] and [str.lower] (ASCII is fixed
    below, the rest is taken from the runtime) and the [json] decoder.
    [to_lower_full] sees the code points before and after the one it maps,
    as CPython's final-sigma rule does. *)
Record Runtime : Type := {
  to_upper_full : N -> str;
  to_lower_full : str -> N -> str -> str;
  json_loads : str -> str + json
}.

Section Case.
Variable rt : Runtime.

(** [s.upper()] *)
Definition upper (s : str) : str :=
  flat_map (fun c => if c <? 128 then [ascii_upper c] else to_upper_full rt c) s.

Fixpoint lower_from (before s : str) : str :=
  match s with
  | [] => []
  | c :: s' =>
      (if c <? 128 then [ascii_lower c] else to_lower_full rt before c s')
        ++ lower_from (before ++ [c]) s'
  end.

(** [s.lower()] *)
Definition lower (s : str) : str := lower_from [] s.
End Case.

(** ** Exceptions and outcomes *)

(** The exceptions raised inside the two functions; all derive from
    [Exception].  [RemoteError] stands for whatever the client library
    raises. *)
Inductive exn : Type :=
| ValueError (msg : str)
| JSONDecodeError (msg : str)
| AttributeError (msg : str)
| RemoteError (msg : str).

(** [str(e)] *)
Definition exn_str (e : exn) : str :=
  match e with
  | ValueError m | JSONDecodeError m | AttributeError m | RemoteError m => m
  end.

(** What [tenacity] raises once it stops retrying. *)
Inductive retry_error : Type :=
| RetryError (last_attempt : exn).

Inductive outcome (E A : Type) : Type :=
| Returned (a : A)
| Raised (e : E).
Arguments Returned {E A} a.
Arguments Raised {E A} e.

(** ** The world the functions act on *)

(** A call of [model.generate_content]: the prompt and, for the structured
    call, the [generation_config]. *)
Record request : Type := {
  contents : str;
  generation_config : option json
}.

(** [response.text] of a call, or the exception the call (or reading its
    text) raises. *)
Inductive reply : Type :=
| Fails (e : exn)
| Text (text : str).

(** The hosted model: its reply may depend on how many calls came before. *)
Definition Remote : Type := nat -> request -> reply.

(** An entry of the [st.cache_data] store: the value, the elements the
    function showed while computing it, and the time it expires. *)
Record cache_entry : Type := {
  cached_value : str;
  cached_elements : list str;
  expires : Z
}.

Record state : Type := {
  remote_calls : list request;     (* requests sent, oldest first *)
  st_errors : list str;            (* messages shown with st.error *)
  sleeps : list Z;                 (* time.sleep durations, in seconds *)
  clock : Z;                       (* the timer, in seconds *)
  cache : gmap str cache_entry     (* the store behind st.cache_data *)
}.

Definition initial_state : state :=
  {| remote_calls := []; st_errors := []; sleeps := []; clock := 0; cache := ∅ |}.

(** ** A state-and-exception monad *)

Definition M (E A : Type) : Type := state -> outcome E A * state.

Definition ret {E A} (a : A) : M E A := fun st => (Returned a, st).

Definition raise {E A} (e : E) : M E A := fun st => (Raised e, st).

Definition bind {E A B} (m : M E A) (k : A -> M E B) : M E B :=
  fun st =>
    match m st with
    | (Returned a, st') => k a st'
    | (Raised e, st') => (Raised e, st')
    end.

(** [try: body except Exception as e: handler(e)] *)
Definition try_except {E E' A} (body : M E A) (handler : E -> M E' A) : M E' A :=
  fun st =>
    match body st with
    | (Returned a, st') => (Returned a, st')
    | (Raised e, st') => handler e st'
    end.

Declare Scope py_scope.
Delimit Scope py_scope with py.
Notation "x <- m ;; k" := (bind m (fun x => k))
  (at level 100, m at next level, right associativity) : py_scope.
Notation "m ;;; k" := (bind m (fun _ => k))
  (at level 100, right associativity) : py_scope.

(** [st.error(msg)] *)
Definition st_error {E} (msg : str) : M E unit :=
  fun st =>
    (Returned tt,
     {| remote_calls := remote_calls st; st_errors := st_errors st ++ [msg];
        sleeps := sleeps st; clock := clock st; cache := cache st |}).

(** [time.sleep(seconds)] *)
Definition sleep {E} (seconds : Z) : M E unit :=
  fun st =>
    (Returned tt,
     {| remote_calls := remote_calls st; st_errors := st_errors st;
        sleeps := sleeps st ++ [seconds]; clock := (clock st + seconds)%Z;
        cache := cache st |}).

(** [model.generate_content(...)] followed by [response.text]. *)
Definition generate_content (model : Remote) (req : request) : M exn str :=
  fun st =>
    let st' := {| remote_calls := remote_calls st ++ [req]; st_errors := st_errors st;
                  sleeps := sleeps st; clock := clock st; cache := cache st |} in
    match model (length (remote_calls st)) req with
    | Fails e => (Raised e, st')
    | Text t => (Returned t, st')
    end.

(** ** The [tenacity] decorator *)

(** [wait_exponential(multiplier, min, max)] after attempt [attempt_number]. *)
Definition wait_exponential (multiplier min max : Z) (attempt_number : nat) : Z :=
  Z.max (Z.max 0 min)
        (Z.min (multiplier * 2 ^ (Z.of_nat attempt_number - 1)) max).

(** The retry loop: [more] further attempts are allowed after this one. *)
Fixpoint attempt {A} (wait : nat -> Z) (more : nat) (attempt_number : nat)
    (f : M exn A) : M retry_error A :=
  fun st =>
    match f st with
    | (Returned a, st') => (Returned a, st')
    | (Raised e, st') =>
        match more with
        | O => (Raised (RetryError e), st')
        | S more' =>
            let (_, st'') := sleep (E := exn) (wait attempt_number) st' in
            attempt wait more' (S attempt_number) f st''
        end
    end.

(** [@retry(stop=stop_after_attempt(n), wait=wait)] *)
Definition retry {A} (stop_after_attempt : nat) (wait : nat -> Z) (f : M exn A)
    : M retry_error A :=
  attempt wait (Nat.pred stop_after_attempt) 1 f.

(** ** The [st.cache_data] decorator *)

Definition store (key : str) (entry : cache_entry) (st : state) : state :=
  {| remote_calls := remote_calls st; st_errors := st_errors st;
     sleeps := sleeps st; clock := clock st;
     cache := <[key := entry]> (cache st) |}.

Definition replay (elements : list str) (st : state) : state :=
  {| remote_calls := remote_calls st; st_errors := st_errors st ++ elements;
     sleeps := sleeps st; clock := clock st; cache := cache st |}.

(** A live entry for [key], if the store has one. *)
Definition cache_lookup (key : str) (st : state) : option cache_entry :=
  match cache st !! key with
  | Some entry => if (clock st <? expires entry)%Z then Some entry else None
  | None => None
  end.

(** [@st.cache_data(ttl=ttl)] on a function of one string argument: a live
    entry is returned and its elements shown again; otherwise the function
    runs and what it returned is stored. *)
Definition cache_data {E} (ttl : Z) (f : str -> M E str) (key : str) : M E str :=
  fun st =>
    match cache_lookup key st with
    | Some entry => (Returned (cached_value entry), replay (cached_elements entry) st)
    | None =>
        match f key st with
        | (Returned v, st') =>
            (Returned v,
             store key {| cached_value := v;
                          cached_elements := skipn (length (st_errors st)) (st_errors st');
                          expires := (clock st' + ttl)%Z |} st')
        | (Raised e, st') => (Raised e, st')
        end
    end.

(** ** The application *)

Definition positive : str := lit "positive".
Definition negative : str := lit "negative".
Definition neutral : str := lit "neutral".

(** [d.get(key)] for the dictionaries whose values are strings. *)
Fixpoint examples_get (d : list (str * str)) (key : str) : option str :=
  match d with
  | [] => None
  | (k, v) :: d' => if str_eqb k key then Some v else examples_get d' key
  end.

(** The dictionary literal of [get_eli10_examples]. *)
Definition eli10_examples : list (str * str) :=
  [ (positive, lit "
    - Original (positive): " ++ DQ ++ lit "I love sunny days at the beach." ++ DQ ++ lit "
      Generated (positive): " ++ DQ ++ lit "Imagine the sun smiling down on the beach, making everything warm and sparkly like a giant hug from the sky 😄! You can splash in the waves that tickle your toes and build the tallest sandcastles ever—watch out, or the tide might say, 'Hey, that's my moat!' 😂. Kids everywhere are giggling and chasing seagulls—it's like the world's best playground 🎉! And at the end of the day, as the sun says goodnight with pretty colors, you feel super happy inside, ready for more adventures tomorrow 🚀. Why did the beach ball go to school? To get a little 'shore' education! 🌅" ++ DQ ++ lit "
        ");
    (negative, lit "
    - Original (negative): " ++ DQ ++ lit "Traffic jams ruin my commute." ++ DQ ++ lit "
      Generated (negative): " ++ DQ ++ lit "Ugh, picture being stuck in a huge line of cars, like a boring game where nobody moves 😞. The engine grumbles like a grumpy monster, and the clock just laughs at you while time drags on forever—talk about a 'traffic' light that never turns green! 🌧️. Horns beep like angry birds, and you're trapped with nowhere to go, making everything feel extra yucky and slow 💔. It's like the cars are having a never-ending staring contest. Why don't traffic jams ever break up? They're just too 'jammed' together! 😤 At least when you finally get home, you can sigh and say, 'Better luck tomorrow... maybe.'" ++ DQ ++ lit "
        ");
    (neutral, lit "
    - Original (neutral): " ++ DQ ++ lit "The weather today is mild." ++ DQ ++ lit "
      Generated (neutral): " ++ DQ ++ lit "Today's weather is just right, not too hot or too cold—like wearing your favorite cozy sweater outside 🌤️. Clouds float by like fluffy sheep, and the breeze is gentle, perfect for kicking a ball or reading a book under a tree 📖. It's a normal day where you can do whatever you want without sweating or shivering, keeping things simple and easy 🤔. Why did the cloud go to school? To get a little 'higher' education! ☁️ Either way, it's a chill day—no drama, just steady and nice, like your best buddy who's always there without stealing the show." ++ DQ ++ lit "
        ") ].

(** The dictionary literal of [get_normal_examples]. *)
Definition normal_examples : list (str * str) :=
  [ (positive, lit "
    - Original (positive): " ++ DQ ++ lit "I love sunny days at the beach." ++ DQ ++ lit "
      Generated (positive): " ++ DQ ++ lit "Sunny days at the beach evoke a profound sense of joy and relaxation. The golden sunlight bathes the shoreline in warmth, creating an ideal setting for leisurely walks along the water's edge. Families gather to enjoy the rhythmic crash of waves, while the gentle sea breeze carries the faint scent of salt and sunscreen. Such moments remind us of nature's ability to recharge the spirit, fostering connections with loved ones and inspiring a deeper appreciation for life's simple pleasures." ++ DQ ++ lit "
        ");
    (negative, lit "
    - Original (negative): " ++ DQ ++ lit "Traffic jams ruin my commute." ++ DQ ++ lit "
      Generated (negative): " ++ DQ ++ lit "Traffic jams transform an ordinary commute into an exasperating ordeal, marked by stagnation and mounting irritation. Vehicles inch forward amid the cacophony of impatient horns, while exhaust fumes thicken the air, amplifying the sense of confinement. Precious time slips away in this involuntary standstill, disrupting schedules and eroding productivity. Ultimately, these delays underscore the vulnerabilities of urban mobility, leaving commuters drained and resentful upon arrival." ++ DQ ++ lit "
        ");
    (neutral, lit "
    - Original (neutral): " ++ DQ ++ lit "The weather today is mild." ++ DQ ++ lit "
      Generated (neutral): " ++ DQ ++ lit "The current weather conditions are mild, characterized by moderate temperatures and low humidity. This equilibrium supports a variety of daily activities, from outdoor errands to indoor pursuits, without the discomfort of extremes. Light cloud cover provides intermittent shade, and a subtle breeze maintains comfort levels. Overall, it presents an unremarkable yet conducive environment for routine proceedings." ++ DQ ++ lit "
        ") ].

(** [examples.get(sentiment, examples["neutral"])]: the default is looked up
    first; the literal has the key, so the [KeyError] branch never runs. *)
Definition get_or_neutral (examples : list (str * str)) (sentiment : str) : str :=
  match examples_get examples neutral with
  | Some fallback =>
      match examples_get examples sentiment with
      | Some entry => entry
      | None => fallback
      end
  | None => []
  end.

Definition get_eli10_examples (sentiment : str) : str :=
  get_or_neutral eli10_examples sentiment.

Definition get_normal_examples (sentiment : str) : str :=
  get_or_neutral normal_examples sentiment.

(** The [json_schema] and [generation_config] of the structured call. *)
Definition json_schema : json :=
  JDict [ (lit "type", JStr (lit "object"));
          (lit "properties",
             JDict [ (lit "sentiment",
                        JDict [ (lit "type", JStr (lit "string"));
                                (lit "enum", JList [JStr positive; JStr negative; JStr neutral]) ]) ]);
          (lit "required", JList [JStr (lit "sentiment")]) ].

Definition sentiment_config : json :=
  JDict [ (lit "response_mime_type", JStr (lit "application/json"));
          (lit "response_schema", json_schema) ].

Definition sentiment_prompt (text : str) : str :=
  lit "
    Classify the sentiment of the following text as exactly one of: positive, negative, neutral.
    
    Text: " ++ text ++ lit "
    ".

Definition base_instructions (sentiment : str) (word_count : Z) : str :=
  lit "
    Task: Generate a coherent "
  ++ (if (word_count <? 150)%Z then lit "paragraph" else lit "short essay")
  ++ lit " based on the original prompt.
    - Strictly maintain "
  ++ sentiment
  ++ lit " tone.
    - Exactly "
  ++ str_of_int word_count
  ++ lit " words (±20).
    - Engaging and natural; structure: Start with a hook related to the prompt, develop 2-3 key ideas, and end with a reflective close.
    ".

Definition flair : str :=
  lit "
        - In ELI10 style: Explain like you're talking to a 10-year-old—use simple words, short sentences, fun examples, and easy ideas anyone can get. Avoid big words or boring facts; make it feel like a story or chat with a kid.
        ".

(** The [extra_flair] of the ELI10 branch. *)
Definition eli10_extra_flair (sentiment : str) : str :=
  if str_eqb sentiment positive then
    lit "Add 3-5 fun jokes or puns to make it hilarious, and sprinkle in lots of excited emojis (like 😄, 🚀, 🎉) throughout to amp up the joy!"
  else if str_eqb sentiment negative then
    lit "Weave in 2-3 dark humor jokes or ironic twists to heighten the gloom, and use grumpy/sad emojis (like 😞, 🌧️, 💔) to match the vibe."
  else
    lit "Keep it balanced with 2-3 light, observational jokes if they fit naturally, and add neutral emojis (like 📖, 🌤️, 🤔) sparingly for visual pop.".

(** The [extra_flair] of the Normal branch. *)
Definition normal_extra_flair : str :=
  lit "
        - Use a formal, professional tone suitable for adults: Clear, concise language with varied sentence structure. No slang, jokes, or emojis.
        ".

Definition fallback_text : str := lit "Generation failed. Please try again.".

(** The ELI10 branch: [base_instructions + flair + f' - {extra_flair}...' +
    get_eli10_examples(sentiment)]. *)
Definition eli10_branch (sentiment : str) (word_count : Z) : str :=
  base_instructions sentiment word_count ++ flair
  ++ (lit " - " ++ eli10_extra_flair sentiment ++ lit "

Examples:
")
  ++ get_eli10_examples sentiment.

(** The Normal branch: [base_instructions + extra_flair + '...Examples:' +
    get_normal_examples(sentiment)]. *)
Definition normal_branch (sentiment : str) (word_count : Z) : str :=
  base_instructions sentiment word_count ++ normal_extra_flair
  ++ lit "

Examples:
" ++ get_normal_examples sentiment.

(** The request of the structured call. *)
Definition sentiment_request (text : str) : request :=
  {| contents := sentiment_prompt text; generation_config := Some sentiment_config |}.

Section App.
Variable rt : Runtime.
Variable model : Remote.

(** Looking up a method the value does not have. *)
Definition attribute_error (v : json) (attr : str) : exn :=
  AttributeError (lit "'" ++ type_name v ++ lit "' object has no attribute '"
                  ++ attr ++ lit "'").

(** [json.loads(s)] *)
Definition loads (s : str) : M exn json :=
  match json_loads rt s with
  | inl msg => raise (JSONDecodeError msg)
  | inr v => ret v
  end.

(** [result.get(key, default)] *)
Definition get (result : json) (key : str) (default : json) : M exn json :=
  match result with
  | JDict d => ret (match dict_get d key with Some v => v | None => default end)
  | _ => raise (attribute_error result (lit "get"))
  end.

(** [v.lower()] *)
Definition lower_method (v : json) : M exn str :=
  match v with
  | JStr s => ret (lower rt s)
  | _ => raise (attribute_error v (lit "lower"))
  end.

(** The function itself, beneath its two decorators. *)
Definition get_sentiment_body (text : str) : M exn str :=
  if (length (strip text) <? 3)%nat then ret neutral
  else
    try_except
      (response_text <- generate_content model (sentiment_request text) ;;
       match strip response_text with
       | [] => raise (ValueError (lit "Empty response from Gemini"))
       | _ :: _ =>
           result <- loads (strip response_text) ;;
           v <- get result (lit "sentiment") (JStr neutral) ;;
           lower_method v
       end)%py
      (fun e =>
         (st_error (lit "Error in sentiment analysis: " ++ exn_str e) ;;;
          ret neutral)%py).

(** [get_sentiment] as the module exports it:
    [@st.cache_data(ttl=300)] over
    [@retry(stop=stop_after_attempt(3),
            wait=wait_exponential(multiplier=1, min=4, max=10))]. *)
Definition get_sentiment : str -> M retry_error str :=
  cache_data 300
    (fun text => retry 3 (wait_exponential 1 4 10) (get_sentiment_body text)).

(** [style_mode.upper().replace(' (FUN & EMOJIS)', '').strip()] *)
Definition normalize_style (style_mode : str) : str :=
  strip (replace (lit " (FUN & EMOJIS)") [] (upper rt style_mode)).

(** The prompt [generate_sentiment_aligned_text] assembles. *)
Definition generation_prompt (sentiment original_prompt : str) (word_count : Z)
    (style_mode : str) : str :=
  let style_mode := normalize_style style_mode in
  let generation_prompt :=
    if str_eqb style_mode (lit "ELI10") then eli10_branch sentiment word_count
    else normal_branch sentiment word_count in
  generation_prompt ++ (lit "
Original Prompt: " ++ original_prompt).

(** The request of the free-text call. *)
Definition generation_request (sentiment original_prompt : str) (word_count : Z)
    (style_mode : str) : request :=
  {| contents := generation_prompt sentiment original_prompt word_count style_mode;
     generation_config := None |}.

Definition generate_body (sentiment original_prompt : str) (word_count : Z)
    (style_mode : str) : M exn str :=
  try_except
    (response_text <- generate_content model
         (generation_request sentiment original_prompt word_count style_mode) ;;
     match strip response_text with
     | [] => raise (ValueError (lit "Empty response from Gemini"))
     | _ :: _ => ret (strip response_text)
     end)%py
    (fun e =>
       (st_error (lit "Error in text generation: " ++ exn_str e) ;;;
        ret fallback_text)%py).

(** [generate_sentiment_aligned_text] under its [@retry] decorator. *)
Definition generate_sentiment_aligned_text (sentiment original_prompt : str)
    (word_count : Z) (style_mode : str) : M retry_error str :=
  retry 3 (wait_exponential 1 4 10)
    (generate_body sentiment original_prompt word_count style_mode).

(** ** Runs of the application

    One interaction classifies, generates, or lets time pass. *)
Definition advance (seconds : Z) (st : state) : state :=
  {| remote_calls := remote_calls st; st_errors := st_errors st;
     sleeps := sleeps st; clock := (clock st + seconds)%Z; cache := cache st |}.

Inductive step : state -> state -> Prop :=
| step_classify (text : str) (st : state) :
    step st (snd (get_sentiment text st))
| step_generate (sentiment original_prompt : str) (word_count : Z)
    (style_mode : str) (st : state) :
    step st (snd (generate_sentiment_aligned_text sentiment original_prompt
                    word_count style_mode st))
| step_wait (seconds : Z) (st : state) :
    (0 <= seconds)%Z -> step st (advance seconds st).

Inductive reachable : state -> Prop :=
| reachable_initial : reachable initial_state
| reachable_step (st st' : state) : reachable st -> step st st' -> reachable st'.

(** The replies the classifier cannot use: an error of the call, an empty
    text, or a text [json.loads] rejects. *)
Definition fails_to_parse (r : reply) : Prop :=
  match r with
  | Fails _ => True
  | Text t => strip t = [] \/ exists msg, json_loads rt (strip t) = inl msg
  end.
End App.

(** The state one remote call later, [shown] having been displayed. *)
Definition after_call (req : request) (shown : list str) (st : state) : state :=
  {| remote_calls := remote_calls st ++ [req]; st_errors := st_errors st ++ shown;
     sleeps := sleeps st; clock := clock st; cache := cache st |}.

(** What [get_sentiment] makes of the [sentiment] field of a decoded
    object: [result.get("sentiment", "neutral").lower()], with the
    [AttributeError] of a value that is not a string caught. *)
Definition field_result (rt : Runtime) (d : list (str * json)) : str :=
  match dict_get d (lit "sentiment") with
  | None => neutral
  | Some (JStr v) => lower rt v
  | Some _ => neutral
  end.

(** ** The sections of the instruction

    The instruction is described as seven sections in a fixed order; here
    they are by name, to be compared with the prompt the code assembles.
    [playful] says which of the two styles was selected. *)
Definition task_framing (word_count : Z) : str :=
  lit "Task: Generate a coherent "
  ++ (if (word_count <? 150)%Z then lit "paragraph" else lit "short essay")
  ++ lit " based on the original prompt.".

Definition tone_directive (sentiment : str) : str :=
  lit "- Strictly maintain " ++ sentiment ++ lit " tone.".

Definition length_directive (word_count : Z) : str :=
  lit "- Exactly " ++ str_of_int word_count ++ lit " words (±20).".

Definition structure_directive : str :=
  lit "- Engaging and natural; structure: Start with a hook related to the prompt, develop 2-3 key ideas, and end with a reflective close.".

Definition style_directives (playful : bool) (sentiment : str) : str :=
  if playful then flair ++ lit " - " ++ eli10_extra_flair sentiment
  else normal_extra_flair.

Definition exemplars (playful : bool) (sentiment : str) : str :=
  if playful then get_eli10_examples sentiment else get_normal_examples sentiment.

Definition subject_matter (original_prompt : str) : str :=
  lit "Original Prompt: " ++ original_prompt.

Definition indent : str := lit "
    ".

Definition sections_in_order (playful : bool) (sentiment original_prompt : str)
    (word_count : Z) : str :=
  indent ++ task_framing word_count
  ++ indent ++ tone_directive sentiment
  ++ indent ++ length_directive word_count
  ++ indent ++ structure_directive
  ++ indent ++ style_directives playful sentiment
  ++ lit "

Examples:
" ++ exemplars playful sentiment
  ++ lit "
" ++ subject_matter original_prompt.

(** The text of a structured reply whose [sentiment] field is [value]. *)
Definition structured_reply (value : str) : str :=
  lit "{" ++ DQ ++ lit "sentiment" ++ DQ ++ lit ": " ++ DQ ++ value ++ DQ ++ lit "}".

(** The three sentiment labels. *)
Definition is_label (v : str) : Prop :=
  v = positive \/ v = negative \/ v = neutral.

(** What every entry stored for a text of fewer than three characters
    looks like. *)
Definition short_entries_neutral (st : state) : Prop :=
  forall (key : str) (entry : cache_entry),
    cache st !! key = Some entry ->
    (length (strip key) < 3)%nat ->
    cached_value entry = neutral /\ cached_elements entry = [].

(** ** A runtime to run the model on

    To evaluate the functions on concrete inputs the runtime has to be
    instantiated.  [decode] reads the JSON fragment the examples use:
    objects, arrays, strings with the one-letter escapes, integers, [true],
    [false] and [null]; on that fragment it returns what [json.loads]
    returns (its error messages carry no position).  Every call consumes at
    least one code point, so a fuel of one more than the length is enough. *)

Definition json_ws (c : N) : bool :=
  (c =? 32) || (c =? 9) || (c =? 10) || (c =? 13).

Fixpoint skip_ws (s : str) : str :=
  match s with
  | [] => []
  | c :: s' => if json_ws c then skip_ws s' else s
  end.

Definition unescape (c : N) : option N :=
  if c =? 34 then Some 34 else if c =? 92 then Some 92 else if c =? 47 then Some 47
  else if c =? 98 then Some 8 else if c =? 102 then Some 12 else if c =? 110 then Some 10
  else if c =? 114 then Some 13 else if c =? 116 then Some 9 else None.

(** The text of a string after its opening quote, and what follows it. *)
Fixpoint scan_string (s acc : str) : option (str * str) :=
  match s with
  | [] => None
  | c :: r =>
      if c =? 34 then Some (rev acc, r)
      else if c =? 92 then
        match r with
        | [] => None
        | e :: r' =>
            match unescape e with
            | Some c' => scan_string r' (c' :: acc)
            | None => None
            end
        end
      else if c <? 32 then None
      else scan_string r (c :: acc)
  end.

Definition is_digit (c : N) : bool := (48 <=? c) && (c <=? 57).

Fixpoint scan_digits (s : str) (acc : Z) : Z * str :=
  match s with
  | [] => (acc, [])
  | c :: r => if is_digit c then scan_digits r (10 * acc + Z.of_N (c - 48))%Z else (acc, s)
  end.

(** An integer; a fraction or an exponent is outside the fragment. *)
Definition scan_int (s : str) : option (Z * str) :=
  let (sign, body) :=
    match s with
    | c :: r => if c =? 45 then ((-1)%Z, r) else (1%Z, s)
    | [] => (1%Z, s)
    end in
  match body with
  | [] => None
  | c :: r =>
      if negb (is_digit c) then None
      else
        let (n, rest) := if c =? 48 then (0%Z, r) else scan_digits body 0 in
        match rest with
        | d :: _ => if (d =? 46) || (d =? 101) || (d =? 69) then None
                    else Some ((sign * n)%Z, rest)
        | [] => Some ((sign * n)%Z, rest)
        end
  end.

Fixpoint decode_value (fuel : nat) (s : str) : option (json * str) :=
  match fuel with
  | O => None
  | S fuel' =>
      match skip_ws s with
      | [] => None
      | c :: r =>
          if c =? 34 then
            match scan_string r [] with
            | Some (text, rest) => Some (JStr text, rest)
            | None => None
            end
          else if c =? 123 then
            match skip_ws r with
            | [] => None
            | c' :: r' => if c' =? 125 then Some (JDict [], r')
                          else decode_members fuel' (c' :: r') []
            end
          else if c =? 91 then
            match skip_ws r with
            | [] => None
            | c' :: r' => if c' =? 93 then Some (JList [], r')
                          else decode_items fuel' (c' :: r') []
            end
          else if starts_with (lit "true") (c :: r) then Some (JBool true, skipn 4 (c :: r))
          else if starts_with (lit "false") (c :: r) then Some (JBool false, skipn 5 (c :: r))
          else if starts_with (lit "null") (c :: r) then Some (JNull, skipn 4 (c :: r))
          else
            match scan_int (c :: r) with
            | Some (n, rest) => Some (JInt n, rest)
            | None => None
            end
      end
  end
with decode_members (fuel : nat) (s : str) (acc : list (str * json))
    : option (json * str) :=
  match fuel with
  | O => None
  | S fuel' =>
      match s with
      | [] => None
      | q :: r =>
          if negb (q =? 34) then None
          else
            match scan_string r [] with
            | None => None
            | Some (key, rest) =>
                match skip_ws rest with
                | [] => None
                | colon :: rest' =>
                    if negb (colon =? 58) then None
                    else
                      match decode_value fuel' rest' with
                      | None => None
                      | Some (v, rest'') =>
                          match skip_ws rest'' with
                          | [] => None
                          | c :: r' =>
                              if c =? 44 then
                                decode_members fuel' (skip_ws r') (dict_set acc key v)
                              else if c =? 125 then Some (JDict (dict_set acc key v), r')
                              else None
                          end
                      end
                end
            end
      end
  end
with decode_items (fuel : nat) (s : str) (acc : list json) : option (json * str) :=
  match fuel with
  | O => None
  | S fuel' =>
      match decode_value fuel' s with
      | None => None
      | Some (v, rest) =>
          match skip_ws rest with
          | [] => None
          | c :: r' =>
              if c =? 44 then decode_items fuel' r' (acc ++ [v])
              else if c =? 93 then Some (JList (acc ++ [v]), r')
              else None
          end
      end
  end.

Definition decode (s : str) : str + json :=
  match decode_value (S (length s)) s with
  | None => inl (lit "Expecting value")
  | Some (v, rest) =>
      match skip_ws rest with
      | [] => inr v
      | _ :: _ => inl (lit "Extra data")
      end
  end.

(** ASCII text is all the examples case-map, so the tables for the other
    code points are left as the identity here. *)
Definition example_runtime : Runtime :=
  {| to_upper_full := fun c => [c];
     to_lower_full := fun _ c _ => [c];
     json_loads := decode |}.

(** A model that answers every call with the same reply. *)
Definition always (r : reply) : Remote := fun _ _ => r.

(** A model that plays a script of replies, then keeps failing. *)
Definition scripted (script : list reply) : Remote :=
  fun n _ => nth n script (Fails (RemoteError (lit "unavailable"))).

(** ** Reading a decimal numeral

    The integer a numeral denotes, to say what [str_of_int] writes. *)

(** The digits, most significant first. *)
Fixpoint digits_value (s : str) (acc : N) : option N :=
  match s with
  | [] => Some acc
  | c :: s' => if is_digit c then digits_value s' (10 * acc + (c - 48)) else None
  end.

(** [int(s)] on the numerals [str] writes: a minus sign before the digits
    of a negative number, no leading zero, no sign on zero. *)
Definition int_of_str (s : str) : option Z :=
  match s with
  | [] => None
  | c :: r =>
      if c =? 45 then
        match r with
        | [] => None
        | d :: _ =>
            if d =? 48 then None
            else option_map (fun n => Z.opp (Z.of_N n)) (digits_value r 0)
        end
      else if c =? 48 then
        match r with
        | [] => Some 0%Z
        | _ :: _ => None
        end
      else option_map Z.of_N (digits_value s 0)
  end.

(** ** The page script around the pipeline

    The body of the Generate button: the validation of the prompt, the
    choice between the manual and the detected sentiment, the cleaning of
    the style mode, the call of the generator and the word count; then the
    export and its download button. *)

(** [s.split()]: the maximal runs of code points that are not whitespace.
    [word] holds the run being read, last code point first. *)
Fixpoint split_from (s word : str) : list str :=
  match s with
  | [] => match word with [] => [] | _ :: _ => [rev word] end
  | c :: s' =>
      if is_space c then
        match word with
        | [] => split_from s' []
        | _ :: _ => rev word :: split_from s' []
        end
      else split_from s' (c :: word)
  end.

Definition split (s : str) : list str := split_from s [].

(** The elements the script puts on the page. *)
Inductive element : Type :=
| Info (body : str)
| Success (body : str)
| Warning (body : str)
| Markdown (body : str)
| Write (body : str)
| Caption (body : str)
| DownloadButton (label : str) (data : list N) (file_name mime : str).

(** ["ELI10" if "ELI10" in style_mode.upper() else "Normal"] *)
Definition clean_style (rt : Runtime) (style_mode : str) : str :=
  if contains (lit "ELI10") (upper rt style_mode) then lit "ELI10" else lit "Normal".

(** The body of [if st.button(...)] up to the caption.  [selected_sentiment]
    is the value of the "Select Sentiment" box, which the sidebar shows
    under the same test [manual_sentiment == "Manual"]. *)
Definition generate_button (rt : Runtime) (model : Remote)
    (manual_sentiment selected_sentiment : str) (word_count : Z)
    (style_mode original_prompt : str) : M retry_error (list element) :=
  match strip original_prompt with
  | [] => ret [Warning (lit "Please enter a prompt.")]
  | _ :: _ =>
      (detected <-
         (if str_eqb manual_sentiment (lit "Manual") then
            ret (selected_sentiment,
                 Info (lit "Using manual sentiment: **" ++ selected_sentiment ++ lit "**"))
          else
            sentiment <- get_sentiment rt model original_prompt ;;
            ret (sentiment,
                 Success (lit "Detected Sentiment: **" ++ sentiment ++ lit "**"))) ;;
       let sentiment := fst detected in
       generated_text <-
         generate_sentiment_aligned_text rt model sentiment original_prompt word_count
           (clean_style rt style_mode) ;;
       let gen_word_count := length (split generated_text) in
       ret [ snd detected;
             Markdown (lit "### 📝 Original Prompt");
             Write original_prompt;
             Markdown (lit "**Sentiment:** " ++ sentiment);
             Markdown (lit "**Style:** " ++ style_mode);
             Markdown (lit "### 🎨 Generated Text");
             Write generated_text;
             Caption (lit "Generated ~" ++ str_of_int (Z.of_nat gen_word_count)
                      ++ lit " words") ])%py
  end.

(** [s.encode('utf-8')]; [None] stands for the [UnicodeEncodeError] a lone
    surrogate raises.  (A Python string holds no code point from 0x110000.) *)
Definition utf8_encode_char (c : N) : option (list N) :=
  if c <? 128 then Some [c]
  else if c <? 2048 then Some [192 + c / 64; 128 + c mod 64]
  else if (55296 <=? c) && (c <=? 57343) then None
  else if c <? 65536 then
    Some [224 + c / 4096; 128 + (c / 64) mod 64; 128 + c mod 64]
  else if c <? 1114112 then
    Some [240 + c / 262144; 128 + (c / 4096) mod 64; 128 + (c / 64) mod 64;
          128 + c mod 64]
  else None.

Fixpoint utf8_encode (s : str) : option (list N) :=
  match s with
  | [] => Some []
  | c :: s' =>
      match utf8_encode_char c, utf8_encode s' with
      | Some bs, Some rest => Some (bs ++ rest)
      | _, _ => None
      end
  end.

(** The file name of an export; [stamp] is
    [time.strftime('%Y%m%d_%H%M%S')]. *)
Definition export_name (rt : Runtime) (sentiment style_mode stamp extension : str) : str :=
  lit "sentiment_text_" ++ sentiment ++ lit "_"
  ++ replace (lit " ") (lit "_") (lower rt style_mode)
  ++ lit "_" ++ stamp ++ extension.

(** The [fallback_text] of [create_export]; [generated_on] is
    [time.strftime('%Y-%m-%d %H:%M:%S')]. *)
Definition export_text (sentiment style_mode original_prompt generated_text : str)
    (gen_word_count : nat) (generated_on : str) : str :=
  lit "AI Sentiment Text Generator

Original Prompt: " ++ original_prompt
  ++ lit "
Sentiment: " ++ sentiment
  ++ lit "
Style: " ++ style_mode
  ++ lit "

Generated Text:
" ++ generated_text
  ++ lit "

Generated on " ++ generated_on
  ++ lit " | ~" ++ str_of_int (Z.of_nat gen_word_count) ++ lit " words".

(** What the [try] block of [create_export] comes to: the import fails, or
    reportlab builds the document, whose bytes are taken as given. *)
Inductive reportlab : Type :=
| NotInstalled
| Built (document : list N).

(** [create_export()]: the data, the MIME type and the file name; [None]
    when encoding the text raises. *)
Definition create_export (rt : Runtime) (lab : reportlab)
    (sentiment style_mode original_prompt generated_text : str)
    (gen_word_count : nat) (generated_on stamp : str)
    : option (list N * str * str) :=
  match lab with
  | Built document =>
      Some (document, lit "application/pdf",
            export_name rt sentiment style_mode stamp (lit ".pdf"))
  | NotInstalled =>
      match utf8_encode (export_text sentiment style_mode original_prompt
                           generated_text gen_word_count generated_on) with
      | Some data =>
          Some (data, lit "text/plain",
                export_name rt sentiment style_mode stamp (lit ".txt"))
      | None => None
      end
  end.

Definition pdf_label : str := lit "💾 Download as PDF 📄".
Definition txt_label : str := lit "💾 Download as TXT 📄".
Definition reportlab_warning : str :=
  lit "💡 PDF needs 'reportlab'—installed? Falling back to TXT for now.".

(** The download button and the warning that may follow it. *)
Definition download_elements (rt : Runtime) (data : list N) (mime filename : str)
    : list element :=
  DownloadButton
    (if contains (lit "pdf") (lower rt filename) then pdf_label else txt_label)
    data filename mime
  :: (if contains (lit "pdf") (lower rt filename) then []
      else [Warning reportlab_warning]).

(** The characters [time.strftime('%Y%m%d_%H%M%S')] writes. *)
Definition stamp_char (c : N) : bool := is_digit c || (c =? 95).

(** * Properties *)

(** ** Strings *)

Lemma str_eqb_eq (a b : str) : str_eqb a b = true <-> a = b.
Proof.
  revert b; induction a as [|x a IH]; intros [|y b]; simpl; split; try done.
  - intros [Hxy Hab]%andb_prop. apply N.eqb_eq in Hxy. apply IH in Hab. congruence.
  - intros [= -> ->]. rewrite N.eqb_refl. simpl. by apply IH.
Qed.

Lemma str_eqb_refl (a : str) : str_eqb a a = true.
Proof. by apply str_eqb_eq. Qed.

Lemma str_eqb_neq (a b : str) : str_eqb a b = false <-> a <> b.
Proof.
  destruct (str_eqb a b) eqn:E; split; try done.
  - apply str_eqb_eq in E. done.
  - intros _ ->. rewrite str_eqb_refl in E. done.
Qed.

Lemma lstrip_idem (s : str) : lstrip (lstrip s) = lstrip s.
Proof.
  induction s as [|c s IH]; simpl; [done|].
  destruct (is_space c) eqn:E; [done|]. simpl. by rewrite E.
Qed.

(** What [lstrip] leaves starts with a code point that is not a space. *)
Lemma lstrip_head (s : str) (c : N) (r : str) :
  lstrip s = c :: r -> is_space c = false.
Proof.
  induction s as [|x s IH]; simpl; [done|].
  destruct (is_space x) eqn:E; [done|]. by intros [= <- _].
Qed.

Lemma lstrip_fixed (c : N) (s : str) : is_space c = false -> lstrip (c :: s) = c :: s.
Proof. intros E. simpl. by rewrite E. Qed.

(** A trailing non-space survives [lstrip]. *)
Lemma lstrip_snoc (s : str) (c : N) :
  is_space c = false -> exists r, lstrip (s ++ [c]) = r ++ [c].
Proof.
  intros E. induction s as [|x s [r IH]]; simpl.
  - rewrite E. by exists [].
  - destruct (is_space x); [by exists r|]. by exists (x :: s).
Qed.

Lemma rstrip_idem (s : str) : rstrip (rstrip s) = rstrip s.
Proof. unfold rstrip. by rewrite rev_involutive, lstrip_idem. Qed.

Lemma rstrip_cons (c : N) (s : str) :
  is_space c = false -> exists r, rstrip (c :: s) = c :: r.
Proof.
  intros E. unfold rstrip. simpl.
  destruct (lstrip_snoc (rev s) c E) as [r ->].
  exists (rev r). by rewrite rev_app_distr.
Qed.

Lemma lstrip_strip (s : str) : lstrip (strip s) = strip s.
Proof.
  unfold strip. destruct (lstrip s) as [|c r] eqn:E; [done|].
  pose proof (lstrip_head _ _ _ E) as Hc.
  destruct (rstrip_cons c r Hc) as [r' ->]. by apply lstrip_fixed.
Qed.

(** [s.strip().strip() == s.strip()] *)
Lemma strip_idem (s : str) : strip (strip s) = strip s.
Proof.
  unfold strip at 1. rewrite lstrip_strip. unfold strip. apply rstrip_idem.
Qed.

Lemma starts_with_app (p s : str) : starts_with p (p ++ s) = true.
Proof. induction p as [|x p IH]; simpl; [done|]. by rewrite N.eqb_refl. Qed.

Lemma contains_unfold (needle s : str) :
  contains needle s =
  starts_with needle s || match s with [] => false | _ :: s' => contains needle s' end.
Proof. by destruct s. Qed.

(** A string contains each of its infixes. *)
Lemma contains_infix (a needle b : str) : contains needle (a ++ needle ++ b) = true.
Proof.
  induction a as [|x a IH]; simpl.
  - rewrite contains_unfold, starts_with_app. done.
  - rewrite IH. apply orb_true_r.
Qed.

(** On ASCII text the case mappings do not consult the Unicode tables. *)
Lemma ascii_lower_ascii (c : N) : ascii_lower c < 128 -> c < 128.
Proof. unfold ascii_lower. destruct (_ && _) eqn:E; lia. Qed.

Lemma lower_from_ascii (rt : Runtime) (s before : str) :
  Forall (fun c => c < 128) s -> lower_from rt before s = map ascii_lower s.
Proof.
  intros H. revert before. induction H as [|c s Hc _ IH]; intros before; simpl; [done|].
  apply N.ltb_lt in Hc. rewrite Hc. simpl. by rewrite IH.
Qed.

Lemma lower_casing (rt : Runtime) (v label : str) :
  Forall (fun c => c < 128) label -> map ascii_lower v = label -> lower rt v = label.
Proof.
  intros Hl Hv. unfold lower. rewrite lower_from_ascii; [done|].
  subst label. induction v as [|c v IH]; [done|].
  inversion Hl; subst. constructor; [by apply ascii_lower_ascii | by apply IH].
Qed.

(** ** The decorators *)

Section Decorators.
Context {A : Type}.

(** An attempt that returns is not repeated. *)
Lemma attempt_returned (wait : nat -> Z) (more n : nat) (f : M exn A)
    (st st' : state) (a : A) :
  f st = (Returned a, st') -> attempt wait more n f st = (Returned a, st').
Proof. intros H. destruct more; simpl; by rewrite H. Qed.

Lemma retry_returned (stop : nat) (wait : nat -> Z) (f : M exn A)
    (st st' : state) (a : A) :
  f st = (Returned a, st') -> retry stop wait f st = (Returned a, st').
Proof. apply attempt_returned. Qed.

(** A function that raises at every attempt is tried [stop] times, with a
    sleep between two attempts, before [RetryError] is raised: here for the
    policy of the application and a function that leaves the state alone. *)
Lemma retry_exhausted (e : exn) (st : state) :
  retry (A := A) 3 (wait_exponential 1 4 10) (raise e) st =
  (Raised (RetryError e),
   {| remote_calls := remote_calls st; st_errors := st_errors st;
      sleeps := (sleeps st ++ [4%Z]) ++ [4%Z]; clock := (clock st + 4 + 4)%Z;
      cache := cache st |}).
Proof. reflexivity. Qed.
End Decorators.

Lemma cache_data_miss {E : Type} (ttl : Z) (f : str -> M E str) (key : str)
    (st st' : state) (v : str) :
  cache_lookup key st = None ->
  f key st = (Returned v, st') ->
  cache_data ttl f key st =
  (Returned v,
   store key {| cached_value := v;
                cached_elements := skipn (length (st_errors st)) (st_errors st');
                expires := (clock st' + ttl)%Z |} st').
Proof. intros Hmiss Hf. unfold cache_data. by rewrite Hmiss, Hf. Qed.

Lemma cache_data_hit {E : Type} (ttl : Z) (f : str -> M E str) (key : str)
    (st : state) (entry : cache_entry) :
  cache_lookup key st = Some entry ->
  cache_data ttl f key st = (Returned (cached_value entry), replay (cached_elements entry) st).
Proof. intros Hhit. unfold cache_data. by rewrite Hhit. Qed.

Lemma cache_lookup_Some (key : str) (st : state) (entry : cache_entry) :
  cache_lookup key st = Some entry -> cache st !! key = Some entry.
Proof.
  unfold cache_lookup. destruct (cache st !! key) as [e|]; [|done].
  destruct (_ <? _)%Z; [|done]. by intros [= ->].
Qed.

(** ** The classifier *)

Section Classifier.
Variable rt : Runtime.
Variable model : Remote.

(** Too short a text is answered without a call. *)
Lemma get_sentiment_body_short (text : str) (st : state) :
  (length (strip text) < 3)%nat ->
  get_sentiment_body rt model text st = (Returned neutral, st).
Proof.
  intros H. unfold get_sentiment_body.
  apply Nat.ltb_lt in H. by rewrite H.
Qed.

(** A call that raises: the handler shows the error and answers neutral. *)
Lemma get_sentiment_body_fails (text : str) (st : state) (e : exn) :
  (3 <= length (strip text))%nat ->
  model (length (remote_calls st)) (sentiment_request text) = Fails e ->
  get_sentiment_body rt model text st =
  (Returned neutral,
   after_call (sentiment_request text)
     [lit "Error in sentiment analysis: " ++ exn_str e] st).
Proof.
  intros Hlen Hr. unfold get_sentiment_body.
  apply Nat.ltb_ge in Hlen. rewrite Hlen.
  unfold try_except, bind, generate_content. by rewrite Hr.
Qed.

(** An empty text raises [ValueError], which the handler catches. *)
Lemma get_sentiment_body_empty (text : str) (st : state) (t : str) :
  (3 <= length (strip text))%nat ->
  model (length (remote_calls st)) (sentiment_request text) = Text t ->
  strip t = [] ->
  get_sentiment_body rt model text st =
  (Returned neutral,
   after_call (sentiment_request text)
     [lit "Error in sentiment analysis: " ++ lit "Empty response from Gemini"] st).
Proof.
  intros Hlen Hr Ht. unfold get_sentiment_body.
  apply Nat.ltb_ge in Hlen. rewrite Hlen.
  unfold try_except, bind, generate_content. by rewrite Hr, Ht.
Qed.

(** A text the decoder rejects raises [JSONDecodeError], caught as well. *)
Lemma get_sentiment_body_undecodable (text : str) (st : state) (t msg : str) :
  (3 <= length (strip text))%nat ->
  model (length (remote_calls st)) (sentiment_request text) = Text t ->
  strip t <> [] ->
  json_loads rt (strip t) = inl msg ->
  get_sentiment_body rt model text st =
  (Returned neutral,
   after_call (sentiment_request text)
     [lit "Error in sentiment analysis: " ++ msg] st).
Proof.
  intros Hlen Hr Ht Hj. unfold get_sentiment_body.
  apply Nat.ltb_ge in Hlen. rewrite Hlen.
  unfold try_except, bind, generate_content, loads. rewrite Hr.
  destruct (strip t) as [|c r]; [done|]. by rewrite Hj.
Qed.

(** A decoded object: the answer is read off its [sentiment] field. *)
Lemma get_sentiment_body_object (text : str) (st : state) (t : str)
    (d : list (str * json)) :
  (3 <= length (strip text))%nat ->
  model (length (remote_calls st)) (sentiment_request text) = Text t ->
  strip t <> [] ->
  json_loads rt (strip t) = inr (JDict d) ->
  exists shown,
    get_sentiment_body rt model text st =
    (Returned (field_result rt d), after_call (sentiment_request text) shown st).
Proof.
  intros Hlen Hr Ht Hj. unfold get_sentiment_body.
  apply Nat.ltb_ge in Hlen. rewrite Hlen.
  unfold try_except, bind, generate_content, loads. rewrite Hr.
  destruct (strip t) as [|c r]; [done|]. rewrite Hj.
  unfold get, field_result, ret. simpl.
  destruct (dict_get d (lit "sentiment")) as [[]|]; simpl;
    try (eexists [_]; reflexivity).
  - exists []. unfold after_call. by rewrite app_nil_r.
  - exists []. unfold after_call. by rewrite app_nil_r.
Qed.

(** Whatever the reply, a text of three characters or more costs exactly
    one call, and the function returns. *)
Lemma get_sentiment_body_long (text : str) (st : state) :
  (3 <= length (strip text))%nat ->
  exists v shown,
    get_sentiment_body rt model text st =
    (Returned v, after_call (sentiment_request text) shown st).
Proof.
  intros Hlen.
  destruct (model (length (remote_calls st)) (sentiment_request text)) as [e|t] eqn:Hr.
  - eexists _, _. by apply get_sentiment_body_fails.
  - destruct (strip t) as [|c r] eqn:Ht.
    + eexists _, _. by eapply get_sentiment_body_empty.
    + unfold get_sentiment_body.
      apply Nat.ltb_ge in Hlen. rewrite Hlen.
      unfold try_except, bind, generate_content, loads. rewrite Hr, Ht.
      destruct (json_loads rt (c :: r)) as [msg|result]; simpl.
      * eexists _, [_]. reflexivity.
      * unfold get, ret.
        destruct result; simpl; try (eexists _, [_]; reflexivity).
        destruct (match dict_get items (lit "sentiment") with
                  | Some v => v | None => JStr neutral end);
          simpl; try (eexists _, [_]; reflexivity).
        eexists _, []. unfold after_call. by rewrite app_nil_r.
Qed.

Lemma get_sentiment_body_returns (text : str) (st : state) :
  exists v st', get_sentiment_body rt model text st = (Returned v, st').
Proof.
  destruct (Nat.lt_ge_cases (length (strip text)) 3) as [H|H].
  - eexists _, _. by apply get_sentiment_body_short.
  - destruct (get_sentiment_body_long text st H) as (v & shown & ->). by eexists _, _.
Qed.

(** On a miss the cached function answers what its body answers. *)
Lemma get_sentiment_miss (text : str) (st st' : state) (v : str) :
  cache_lookup text st = None ->
  get_sentiment_body rt model text st = (Returned v, st') ->
  get_sentiment rt model text st =
  (Returned v,
   store text {| cached_value := v;
                 cached_elements := skipn (length (st_errors st)) (st_errors st');
                 expires := (clock st' + 300)%Z |} st').
Proof.
  intros Hmiss Hbody. unfold get_sentiment.
  apply cache_data_miss; [done|]. by apply retry_returned.
Qed.
End Classifier.

(** ** The generator *)

Section Generator.
Variable rt : Runtime.
Variable model : Remote.

Lemma generate_body_fails (sentiment original_prompt : str) (word_count : Z)
    (style_mode : str) (st : state) (e : exn) :
  model (length (remote_calls st))
    (generation_request rt sentiment original_prompt word_count style_mode) = Fails e ->
  generate_body rt model sentiment original_prompt word_count style_mode st =
  (Returned fallback_text,
   after_call (generation_request rt sentiment original_prompt word_count style_mode)
     [lit "Error in text generation: " ++ exn_str e] st).
Proof.
  intros Hr. unfold generate_body, try_except, bind, generate_content. by rewrite Hr.
Qed.

Lemma generate_body_empty (sentiment original_prompt : str) (word_count : Z)
    (style_mode : str) (st : state) (t : str) :
  model (length (remote_calls st))
    (generation_request rt sentiment original_prompt word_count style_mode) = Text t ->
  strip t = [] ->
  generate_body rt model sentiment original_prompt word_count style_mode st =
  (Returned fallback_text,
   after_call (generation_request rt sentiment original_prompt word_count style_mode)
     [lit "Error in text generation: " ++ lit "Empty response from Gemini"] st).
Proof.
  intros Hr Ht. unfold generate_body, try_except, bind, generate_content.
  by rewrite Hr, Ht.
Qed.

Lemma generate_body_text (sentiment original_prompt : str) (word_count : Z)
    (style_mode : str) (st : state) (t : str) :
  model (length (remote_calls st))
    (generation_request rt sentiment original_prompt word_count style_mode) = Text t ->
  strip t <> [] ->
  generate_body rt model sentiment original_prompt word_count style_mode st =
  (Returned (strip t),
   after_call (generation_request rt sentiment original_prompt word_count style_mode)
     [] st).
Proof.
  intros Hr Ht. unfold generate_body, try_except, bind, generate_content.
  rewrite Hr. destruct (strip t) as [|c r]; [done|].
  unfold ret, after_call. by rewrite app_nil_r.
Qed.

(** The generator always returns, after exactly one call. *)
Lemma generate_body_returns (sentiment original_prompt : str) (word_count : Z)
    (style_mode : str) (st : state) :
  exists v shown,
    generate_body rt model sentiment original_prompt word_count style_mode st =
    (Returned v,
     after_call (generation_request rt sentiment original_prompt word_count style_mode)
       shown st).
Proof.
  destruct (model (length (remote_calls st))
              (generation_request rt sentiment original_prompt word_count style_mode))
    as [e|t] eqn:Hr.
  - eexists _, _. by apply generate_body_fails.
  - destruct (strip t) as [|c r] eqn:Ht.
    + eexists _, _. by eapply generate_body_empty.
    + eexists _, _. eapply generate_body_text; [done|]. by rewrite Ht.
Qed.

Lemma generate_returns (sentiment original_prompt : str) (word_count : Z)
    (style_mode : str) (st : state) :
  exists v shown,
    generate_sentiment_aligned_text rt model sentiment original_prompt word_count
      style_mode st =
    (Returned v,
     after_call (generation_request rt sentiment original_prompt word_count style_mode)
       shown st).
Proof.
  destruct (generate_body_returns sentiment original_prompt word_count style_mode st)
    as (v & shown & H).
  exists v, shown. unfold generate_sentiment_aligned_text. by apply retry_returned.
Qed.
End Generator.

(** ** The cache along a run *)

Section Runs.
Variable rt : Runtime.
Variable model : Remote.

Lemma short_entries_initial : short_entries_neutral initial_state.
Proof. intros key entry H. simpl in H. by rewrite lookup_empty in H. Qed.

Lemma short_entries_classify (text : str) (st : state) :
  short_entries_neutral st ->
  short_entries_neutral (snd (get_sentiment rt model text st)).
Proof.
  intros Hinv. destruct (cache_lookup text st) as [entry|] eqn:Hc.
  - unfold get_sentiment. erewrite cache_data_hit by done. exact Hinv.
  - destruct (Nat.lt_ge_cases (length (strip text)) 3) as [Hlen|Hlen].
    + erewrite get_sentiment_miss; [|done|by apply get_sentiment_body_short].
      intros key entry. simpl.
      destruct (decide (text = key)) as [<-|Hne].
      * rewrite lookup_insert_eq. intros [= <-] _. simpl.
        by rewrite skipn_all.
      * rewrite lookup_insert_ne by done. apply Hinv.
    + destruct (get_sentiment_body_long rt model text st Hlen) as (v & shown & Hb).
      erewrite get_sentiment_miss by done.
      intros key entry. simpl.
      destruct (decide (text = key)) as [<-|Hne].
      * intros _ Hshort. lia.
      * rewrite lookup_insert_ne by done. apply Hinv.
Qed.

Lemma short_entries_step (st st' : state) :
  step rt model st st' -> short_entries_neutral st -> short_entries_neutral st'.
Proof.
  intros Hstep Hinv. destruct Hstep as [text st|s p wc sm st|seconds st Hs].
  - by apply short_entries_classify.
  - destruct (generate_returns rt model s p wc sm st) as (v & shown & ->). exact Hinv.
  - exact Hinv.
Qed.

(** Along every run, what the cache holds for a short text is neutral. *)
Lemma reachable_short_entries (st : state) :
  reachable rt model st -> short_entries_neutral st.
Proof.
  induction 1 as [|st st' _ IH Hstep].
  - apply short_entries_initial.
  - by eapply short_entries_step.
Qed.
End Runs.

(** ** The claims about the classifier *)

(** C5: for every text whose trimmed length is below three characters,
    [get_sentiment] returns "neutral" and issues no remote call, in every
    state a run of the application can reach (whether the cache answers or
    the function runs). *)
Theorem C5_short_text_neutral_without_call (rt : Runtime) (model : Remote)
    (text : str) (st : state) :
  reachable rt model st ->
  (length (strip text) < 3)%nat ->
  exists st',
    get_sentiment rt model text st = (Returned neutral, st')
    /\ remote_calls st' = remote_calls st.
Proof.
  intros Hreach Hlen.
  destruct (cache_lookup text st) as [entry|] eqn:Hc.
  - pose proof (reachable_short_entries rt model st Hreach) as Hinv.
    destruct (Hinv text entry (cache_lookup_Some _ _ _ Hc) Hlen) as [Hv _].
    unfold get_sentiment. erewrite cache_data_hit by done. rewrite Hv.
    by eexists.
  - erewrite get_sentiment_miss; [|done|by apply get_sentiment_body_short].
    by eexists.
Qed.

Lemma C5_witness_blank_padded_letter :
  exists st',
    get_sentiment example_runtime (always (Text (structured_reply positive)))
      (lit "  a ") initial_state = (Returned neutral, st')
    /\ remote_calls st' = [].
Proof.
  apply (C5_short_text_neutral_without_call example_runtime
           (always (Text (structured_reply positive))) (lit "  a ") initial_state).
  - apply reachable_initial.
  - vm_compute. lia.
Defined.

(** C1, as the code has it: for a reply that decodes to an object,
    [get_sentiment] answers "neutral" when the [sentiment] field is missing
    or is not a string, and otherwise the field lowercased; so the answer is
    one of the three labels whenever the lowercased field is one of them.  A
    string outside the three labels is returned lowercased, not coerced. *)
Theorem C1_object_reply_answer (rt : Runtime) (model : Remote) (text t : str)
    (d : list (str * json)) (st : state) :
  cache_lookup text st = None ->
  (3 <= length (strip text))%nat ->
  model (length (remote_calls st)) (sentiment_request text) = Text t ->
  strip t <> [] ->
  json_loads rt (strip t) = inr (JDict d) ->
  fst (get_sentiment rt model text st) = Returned (field_result rt d)
  /\ (is_label (field_result rt d)
      \/ exists v, dict_get d (lit "sentiment") = Some (JStr v)
                   /\ field_result rt d = lower rt v).
Proof.
  intros Hmiss Hlen Hr Ht Hj.
  destruct (get_sentiment_body_object rt model text st t d Hlen Hr Ht Hj) as [shown Hb].
  split.
  - by erewrite get_sentiment_miss.
  - unfold field_result.
    destruct (dict_get d (lit "sentiment")) as [[]|];
      try (left; right; right; reflexivity).
    right. by eexists.
Qed.

Lemma C1_witness_missing_field :
  fst (get_sentiment example_runtime (always (Text (lit "{}")))
         (lit "It rained all day") initial_state) = Returned neutral.
Proof.
  apply (C1_object_reply_answer example_runtime (always (Text (lit "{}")))
           (lit "It rained all day") (lit "{}") [] initial_state).
  - reflexivity.
  - vm_compute. lia.
  - reflexivity.
  - vm_compute. discriminate.
  - reflexivity.
Defined.

(** C1, as stated, fails: a reply whose [sentiment] field is "happy" makes
    [get_sentiment] return "happy", which is none of the three labels. *)
Lemma C1_counterexample_unrecognized_value :
  fst (get_sentiment example_runtime (always (Text (structured_reply (lit "happy"))))
         (lit "I am happy") initial_state) = Returned (lit "happy")
  /\ ~ is_label (lit "happy").
Proof.
  split.
  - vm_compute. reflexivity.
  - intros [H|[H|H]]; vm_compute in H; discriminate.
Qed.

(** C4: [get_sentiment] never raises; and when the function runs (the cache
    has no live entry and the text has three characters or more) on a reply
    that is an error of the call, an empty text, or a text the decoder
    rejects, it returns "neutral". *)
Theorem C4_unparseable_reply_neutral (rt : Runtime) (model : Remote) (text : str)
    (st : state) :
  (exists v, fst (get_sentiment rt model text st) = Returned v)
  /\ (cache_lookup text st = None ->
      (3 <= length (strip text))%nat ->
      fails_to_parse rt (model (length (remote_calls st)) (sentiment_request text)) ->
      fst (get_sentiment rt model text st) = Returned neutral).
Proof.
  split.
  - destruct (cache_lookup text st) as [entry|] eqn:Hc.
    + unfold get_sentiment. erewrite cache_data_hit by done. by eexists.
    + destruct (get_sentiment_body_returns rt model text st) as (v & st' & Hb).
      erewrite get_sentiment_miss by done. by eexists.
  - intros Hmiss Hlen Hfail.
    destruct (model (length (remote_calls st)) (sentiment_request text)) as [e|t] eqn:Hr.
    + erewrite get_sentiment_miss; [done|done|by apply get_sentiment_body_fails].
    + destruct (strip t) as [|c r] eqn:Ht.
      * erewrite get_sentiment_miss; [done|done|by eapply get_sentiment_body_empty].
      * destruct Hfail as [Hempty|[msg Hmsg]]; [congruence|].
        erewrite get_sentiment_miss; [done|done|].
        eapply get_sentiment_body_undecodable; [done|done|congruence|done].
Qed.

Lemma C4_witness_malformed_json :
  fst (get_sentiment example_runtime (always (Text (lit "{sentiment: positive")))
         (lit "What a day") initial_state) = Returned neutral.
Proof.
  apply (C4_unparseable_reply_neutral example_runtime
           (always (Text (lit "{sentiment: positive"))) (lit "What a day") initial_state).
  - reflexivity.
  - vm_compute. lia.
  - right. eexists. vm_compute. reflexivity.
Defined.

Lemma labels_ascii (label : str) : is_label label -> Forall (fun c => c < 128) label.
Proof.
  intros [-> | [-> | ->]]; vm_compute; repeat constructor.
Qed.

(** C6: for a reply that decodes to an object whose [sentiment] field is one
    of the three labels in any letter casing, [get_sentiment] returns that
    label, which is the field lowercased. *)
Theorem C6_label_in_any_casing_lowercased (rt : Runtime) (model : Remote)
    (text t : str) (d : list (str * json)) (v label : str) (st : state) :
  cache_lookup text st = None ->
  (3 <= length (strip text))%nat ->
  model (length (remote_calls st)) (sentiment_request text) = Text t ->
  strip t <> [] ->
  json_loads rt (strip t) = inr (JDict d) ->
  dict_get d (lit "sentiment") = Some (JStr v) ->
  is_label label ->
  map ascii_lower v = label ->
  fst (get_sentiment rt model text st) = Returned label /\ label = lower rt v.
Proof.
  intros Hmiss Hlen Hr Ht Hj Hd Hl Hv.
  destruct (get_sentiment_body_object rt model text st t d Hlen Hr Ht Hj) as [shown Hb].
  assert (Hlow : lower rt v = label) by (apply lower_casing; [by apply labels_ascii|done]).
  split; [|done].
  erewrite get_sentiment_miss by done. simpl.
  unfold field_result. by rewrite Hd, Hlow.
Qed.

Lemma C6_witness_mixed_case_negative :
  fst (get_sentiment example_runtime (always (Text (structured_reply (lit "NeGaTiVe"))))
         (lit "Traffic jams ruin my commute.") initial_state) = Returned negative.
Proof.
  apply (C6_label_in_any_casing_lowercased example_runtime
           (always (Text (structured_reply (lit "NeGaTiVe"))))
           (lit "Traffic jams ruin my commute.") (structured_reply (lit "NeGaTiVe"))
           [(lit "sentiment", JStr (lit "NeGaTiVe"))] (lit "NeGaTiVe") negative
           initial_state).
  - reflexivity.
  - vm_compute. lia.
  - reflexivity.
  - vm_compute. discriminate.
  - vm_compute. reflexivity.
  - vm_compute. reflexivity.
  - right. left. reflexivity.
  - vm_compute. reflexivity.
Defined.

(** ** The claims about retries and the generator *)

(** Whatever the model replies, a call of [get_sentiment] issues at most one
    remote call and never sleeps: the retry decorator has nothing to retry. *)
Lemma get_sentiment_effects (rt : Runtime) (model : Remote) (text : str) (st : state) :
  (remote_calls (snd (get_sentiment rt model text st)) = remote_calls st
   \/ remote_calls (snd (get_sentiment rt model text st)) =
      remote_calls st ++ [sentiment_request text])
  /\ sleeps (snd (get_sentiment rt model text st)) = sleeps st.
Proof.
  destruct (cache_lookup text st) as [entry|] eqn:Hc.
  - unfold get_sentiment. erewrite cache_data_hit by exact Hc. simpl. auto.
  - destruct (Nat.lt_ge_cases (length (strip text)) 3) as [Hlen|Hlen].
    + erewrite get_sentiment_miss;
        [|exact Hc|apply get_sentiment_body_short; exact Hlen].
      simpl. auto.
    + destruct (get_sentiment_body_long rt model text st Hlen) as (v & shown & Hb).
      erewrite get_sentiment_miss; [|exact Hc|exact Hb]. simpl. auto.
Qed.

(** Likewise [generate_sentiment_aligned_text] issues exactly one remote call
    and never sleeps. *)
Lemma generate_effects (rt : Runtime) (model : Remote)
    (sentiment original_prompt : str) (word_count : Z) (style_mode : str)
    (st : state) :
  remote_calls (snd (generate_sentiment_aligned_text rt model sentiment
                       original_prompt word_count style_mode st)) =
  remote_calls st
    ++ [generation_request rt sentiment original_prompt word_count style_mode]
  /\ sleeps (snd (generate_sentiment_aligned_text rt model sentiment
                    original_prompt word_count style_mode st)) = sleeps st.
Proof.
  destruct (generate_returns rt model sentiment original_prompt word_count
              style_mode st) as (v & shown & ->).
  simpl. auto.
Qed.

(** C2, on the code: when the remote call raises, the handler inside each
    function turns the exception into the default result, so the retry
    decorator sees a normal return: exactly one call is made, no backoff
    sleep happens, and the default is returned at once. *)
Theorem C2_failing_remote_called_once (rt : Runtime) (e : exn)
    (text sentiment original_prompt : str) (word_count : Z) (style_mode : str)
    (st : state) :
  cache_lookup text st = None ->
  (3 <= length (strip text))%nat ->
  let classified := get_sentiment rt (always (Fails e)) text st in
  let generated :=
    generate_sentiment_aligned_text rt (always (Fails e)) sentiment original_prompt
      word_count style_mode st in
  fst classified = Returned neutral
  /\ remote_calls (snd classified) = remote_calls st ++ [sentiment_request text]
  /\ sleeps (snd classified) = sleeps st
  /\ fst generated = Returned fallback_text
  /\ remote_calls (snd generated) =
     remote_calls st
       ++ [generation_request rt sentiment original_prompt word_count style_mode]
  /\ sleeps (snd generated) = sleeps st.
Proof.
  intros Hmiss Hlen classified generated. subst classified generated.
  erewrite get_sentiment_miss;
    [|done|by apply (get_sentiment_body_fails rt (always (Fails e)) text st e)].
  unfold generate_sentiment_aligned_text.
  erewrite retry_returned;
    [|by apply (generate_body_fails rt (always (Fails e)) _ _ _ _ st e)].
  done.
Qed.

Lemma C2_witness_always_throwing_remote :
  let st := initial_state in
  let model := always (Fails (RemoteError (lit "503 service unavailable"))) in
  let classified := get_sentiment example_runtime model (lit "I love it") st in
  let generated :=
    generate_sentiment_aligned_text example_runtime model neutral (lit "I love it")
      200 (lit "ELI10") st in
  fst classified = Returned neutral
  /\ length (remote_calls (snd classified)) = 1%nat
  /\ sleeps (snd classified) = []
  /\ fst generated = Returned fallback_text
  /\ length (remote_calls (snd generated)) = 1%nat
  /\ sleeps (snd generated) = [].
Proof.
  intros st model classified generated.
  destruct (C2_failing_remote_called_once example_runtime
              (RemoteError (lit "503 service unavailable"))
              (lit "I love it") neutral (lit "I love it") 200 (lit "ELI10")
              initial_state)
    as (H1 & H2 & H3 & H4 & H5 & H6).
  - reflexivity.
  - vm_compute. lia.
  - subst classified generated model st.
    rewrite H1, H2, H3, H4, H5, H6. repeat split.
Defined.

(** C3: for a word count Python can write in the prompt (fewer than 4301
    digits; the page's slider gives 50 to 500),
    [generate_sentiment_aligned_text] never raises.  When the call yields a
    text that is not empty once trimmed, that trimmed text is returned, and
    it is not empty after trimming; when the call raises or yields an empty
    text, the value returned is exactly the fallback string.  (Above the
    limit the f-string of the prompt raises before the [try] is entered.) *)
Theorem C3_generate_never_raises (rt : Runtime) (model : Remote)
    (sentiment original_prompt : str) (word_count : Z) (style_mode : str)
    (st : state) :
  formattable word_count ->
  exists v,
    fst (generate_sentiment_aligned_text rt model sentiment original_prompt
           word_count style_mode st) = Returned v
    /\ match model (length (remote_calls st))
               (generation_request rt sentiment original_prompt word_count style_mode)
       with
       | Text t =>
           match strip t with
           | [] => v = fallback_text
           | _ :: _ => v = strip t /\ strip v <> []
           end
       | Fails _ => v = fallback_text
       end
    /\ fallback_text = lit "Generation failed. Please try again.".
Proof.
  intros _. unfold generate_sentiment_aligned_text.
  destruct (model (length (remote_calls st))
              (generation_request rt sentiment original_prompt word_count style_mode))
    as [e|t] eqn:Hr.
  - exists fallback_text.
    erewrite retry_returned by (by apply generate_body_fails). done.
  - destruct (strip t) as [|c r] eqn:Ht.
    + exists fallback_text.
      erewrite retry_returned by (by eapply generate_body_empty). done.
    + exists (c :: r).
      assert (Hne : strip t <> []) by congruence.
      pose proof (generate_body_text rt model sentiment original_prompt word_count
                    style_mode st t Hr Hne) as Hb.
      rewrite (retry_returned _ _ _ _ _ _ Hb). simpl.
      repeat split; [congruence|]. rewrite <- Ht, strip_idem. congruence.
Qed.

Lemma C3_witness_padded_reply_trimmed :
  formattable 200
  /\ fst (generate_sentiment_aligned_text example_runtime
            (always (Text (lit "  Rain taps the window.  "))) neutral
            (lit "Rain again") 200 (lit "ELI10") initial_state)
     = Returned (lit "Rain taps the window.")
  /\ fst (generate_sentiment_aligned_text example_runtime
            (always (Text (lit "   "))) neutral
            (lit "Rain again") 200 (lit "ELI10") initial_state)
     = Returned (lit "Generation failed. Please try again.").
Proof.
  assert (Hf : formattable 200) by (vm_compute; reflexivity).
  split; [exact Hf|]. split.
  - destruct (C3_generate_never_raises example_runtime
                (always (Text (lit "  Rain taps the window.  "))) neutral
                (lit "Rain again") 200 (lit "ELI10") initial_state Hf)
      as (v & Hv & Hm & _).
    rewrite Hv. f_equal. vm_compute in Hm. destruct Hm as [Hm _].
    rewrite Hm. vm_compute. reflexivity.
  - destruct (C3_generate_never_raises example_runtime
                (always (Text (lit "   "))) neutral
                (lit "Rain again") 200 (lit "ELI10") initial_state Hf)
      as (v & Hv & Hm & Hfb).
    rewrite Hv. f_equal. vm_compute in Hm. rewrite Hm. vm_compute. reflexivity.
Defined.

(** C7:"ELI10 (Fun & Emojis)", "eli10" and "ELI10" all normalize to
    "ELI10" and select the ELI10 branch of the prompt; "Normal (Formal)" and
    "normal" both select the Normal branch (they normalize to
    "NORMAL (FORMAL)" and "NORMAL", neither of which is "ELI10"). *)
Theorem C7_style_normalization (rt : Runtime) (sentiment original_prompt : str)
    (word_count : Z) :
  (normalize_style rt (lit "ELI10 (Fun & Emojis)") = lit "ELI10"
   /\ normalize_style rt (lit "eli10") = lit "ELI10"
   /\ normalize_style rt (lit "ELI10") = lit "ELI10")
  /\ (forall style_mode,
        In style_mode [lit "ELI10 (Fun & Emojis)"; lit "eli10"; lit "ELI10"] ->
        generation_prompt rt sentiment original_prompt word_count style_mode =
        eli10_branch sentiment word_count ++ lit "
Original Prompt: " ++ original_prompt)
  /\ (normalize_style rt (lit "Normal (Formal)") = lit "NORMAL (FORMAL)"
      /\ normalize_style rt (lit "normal") = lit "NORMAL")
  /\ (forall style_mode,
        In style_mode [lit "Normal (Formal)"; lit "normal"] ->
        generation_prompt rt sentiment original_prompt word_count style_mode =
        normal_branch sentiment word_count ++ lit "
Original Prompt: " ++ original_prompt).
Proof.
  assert (H1 : normalize_style rt (lit "ELI10 (Fun & Emojis)") = lit "ELI10")
    by (vm_compute; reflexivity).
  assert (H2 : normalize_style rt (lit "eli10") = lit "ELI10")
    by (vm_compute; reflexivity).
  assert (H3 : normalize_style rt (lit "ELI10") = lit "ELI10")
    by (vm_compute; reflexivity).
  assert (H4 : normalize_style rt (lit "Normal (Formal)") = lit "NORMAL (FORMAL)")
    by (vm_compute; reflexivity).
  assert (H5 : normalize_style rt (lit "normal") = lit "NORMAL")
    by (vm_compute; reflexivity).
  repeat split; try assumption.
  - intros style_mode [<-|[<-|[<-|[]]]]; unfold generation_prompt;
      rewrite ?H1, ?H2, ?H3; reflexivity.
  - intros style_mode [<-|[<-|[]]]; unfold generation_prompt;
      rewrite ?H4, ?H5; reflexivity.
Qed.

(** ** Decimal numerals *)

Lemma lit_cons (c : ascii) (s : string) :
  (N_of_ascii c <? 128) = true -> lit (String c s) = N_of_ascii c :: lit s.
Proof.
  intros H. unfold lit, list_byte_of_string. cbn [list_ascii_of_string map].
  rewrite ascii_of_byte_of_ascii. cbn [utf8_decode]. rewrite H. reflexivity.
Qed.

(** The characters of a numeral of the library: one digit each. *)
Lemma uint_chars (d : Decimal.uint) :
  d <> Decimal.Nil ->
  lit (NilEmpty.string_of_uint d) =
  (48 + DecimalPos.Unsigned.hd d) :: lit (NilEmpty.string_of_uint (DecimalPos.Unsigned.tl d)).
Proof.
  destruct d; [congruence|..]; intros _; cbn [NilEmpty.string_of_uint];
    rewrite lit_cons by reflexivity; reflexivity.
Qed.

Lemma digits_value_uint (d : Decimal.uint) (acc : N) :
  digits_value (lit (NilEmpty.string_of_uint d)) acc =
  Some (DecimalPos.Unsigned.of_lu (Decimal.rev d) + acc * 10 ^ DecimalPos.Unsigned.usize d).
Proof.
  revert acc. induction d; intros acc;
    [cbn; f_equal; lia|..];
    rewrite uint_chars by discriminate;
    cbn [DecimalPos.Unsigned.hd DecimalPos.Unsigned.tl digits_value];
    (replace (is_digit _) with true by reflexivity);
    rewrite IHd; f_equal;
    match goal with
    | |- _ = DecimalPos.Unsigned.of_lu (Decimal.rev (?D d)) + _ =>
        change (Decimal.rev (D d)) with (Decimal.revapp d (D Decimal.Nil))
    end;
    rewrite DecimalPos.Unsigned.of_lu_revapp;
    cbn [DecimalPos.Unsigned.of_lu DecimalPos.Unsigned.usize];
    rewrite N.pow_succ_r'; nia.
Qed.

Lemma nzhead_hd (d : Decimal.uint) :
  Decimal.nzhead d = Decimal.Nil \/ DecimalPos.Unsigned.hd (Decimal.nzhead d) <> 0.
Proof. induction d; cbn; auto; right; discriminate. Qed.

(** The numeral of a positive number starts with a digit other than 0. *)
Lemma to_uint_hd (p : BinNums.positive) :
  Pos.to_uint p <> Decimal.Nil /\ 1 <= DecimalPos.Unsigned.hd (Pos.to_uint p) <= 9.
Proof.
  split; [apply DecimalPos.Unsigned.to_uint_nonnil|].
  assert (Hn : Decimal.unorm (Pos.to_uint p) = Pos.to_uint p).
  { rewrite <- (DecimalPos.Unsigned.to_of (Pos.to_uint p)),
      DecimalPos.Unsigned.of_to. reflexivity. }
  assert (Hhd : forall d, DecimalPos.Unsigned.hd d <= 9) by (destruct d; cbn; lia).
  split; [|apply Hhd].
  unfold Decimal.unorm in Hn.
  destruct (nzhead_hd (Pos.to_uint p)) as [Hnil|Hhead].
  - rewrite Hnil in Hn. exfalso.
    apply (DecimalPos.Unsigned.to_uint_nonzero p). symmetry. exact Hn.
  - destruct (Decimal.nzhead (Pos.to_uint p)) eqn:E.
    1: { cbn in Hhead. congruence. }
    all: rewrite <- Hn; cbn [DecimalPos.Unsigned.hd] in *; lia.
Qed.

Lemma int_of_str_pos (p : BinNums.positive) :
  digits_value (lit (NilEmpty.string_of_uint (Pos.to_uint p))) 0 = Some (Npos p).
Proof.
  rewrite digits_value_uint, <- DecimalPos.Unsigned.of_uint_alt,
    DecimalPos.Unsigned.of_to. f_equal; lia.
Qed.

(** [str_of_int] writes the numeral of its argument: reading it back gives
    the argument. *)
Lemma int_of_str_of_int (n : Z) : int_of_str (str_of_int n) = Some n.
Proof.
  unfold str_of_int. destruct n as [|p|p]; [reflexivity|..];
    cbn [Z.to_int NilZero.string_of_int];
    destruct (to_uint_hd p) as [Hnil [H1 H9]];
    unfold NilZero.string_of_uint;
    pose proof (int_of_str_pos p) as Hval;
    pose proof (uint_chars (Pos.to_uint p) Hnil) as Hc.
  - destruct (Pos.to_uint p) eqn:E; [congruence|..];
      rewrite Hc in *; unfold int_of_str;
      cbn [DecimalPos.Unsigned.hd] in *;
      (replace (_ =? 45) with false by (symmetry; apply N.eqb_neq; lia));
      (replace (_ =? 48) with false by (symmetry; apply N.eqb_neq; lia));
      rewrite Hval; reflexivity.
  - destruct (Pos.to_uint p) eqn:E; [congruence|..];
      rewrite lit_cons by reflexivity;
      rewrite Hc in *; unfold int_of_str;
      cbn [DecimalPos.Unsigned.hd] in *;
      (replace (N_of_ascii "-" =? 45) with true by reflexivity);
      (replace (_ =? 48) with false by (symmetry; apply N.eqb_neq; lia));
      rewrite Hval; reflexivity.
Qed.

(** ** The prompt *)

Lemma base_instructions_sections (sentiment : str) (word_count : Z) :
  base_instructions sentiment word_count =
  indent ++ task_framing word_count
  ++ indent ++ tone_directive sentiment
  ++ indent ++ length_directive word_count
  ++ indent ++ structure_directive ++ indent.
Proof.
  unfold base_instructions, task_framing, tone_directive, length_directive,
    structure_directive, indent.
  rewrite <- !app_assoc. vm_compute. reflexivity.
Qed.

(** The prompt, section by section. *)
Lemma generation_prompt_sections (rt : Runtime) (sentiment original_prompt : str)
    (word_count : Z) (style_mode : str) :
  generation_prompt rt sentiment original_prompt word_count style_mode =
  sections_in_order (str_eqb (normalize_style rt style_mode) (lit "ELI10"))
    sentiment original_prompt word_count.
Proof.
  unfold generation_prompt, sections_in_order.
  destruct (str_eqb (normalize_style rt style_mode) (lit "ELI10"));
    unfold eli10_branch, normal_branch, style_directives, exemplars, subject_matter;
    rewrite base_instructions_sections, <- !app_assoc; vm_compute; reflexivity.
Qed.

(** C8: for every word count Python can write in the prompt (fewer than
    4301 digits), every sentiment, style and original text, the prompt is
    the seven sections in their order: task framing, tone directive, length
    directive, structure directive, style directives, the exemplars keyed by
    sentiment and style, and last the original text verbatim.  The length
    directive reads "Exactly {word_count} words (±20)", where the digits
    written are the decimal numeral of the word count (read back with
    [int_of_str] they give the word count), so the prompt contains that
    text: "Exactly 200 words (±20)" for 200 words, and likewise for the two
    ends of the slider, 50 and 500. *)
Theorem C8_prompt_sections_in_order (rt : Runtime) (sentiment original_prompt : str)
    (word_count : Z) (style_mode : str) :
  formattable word_count ->
  let playful := str_eqb (normalize_style rt style_mode) (lit "ELI10") in
  let prompt := generation_prompt rt sentiment original_prompt word_count style_mode in
  prompt = sections_in_order playful sentiment original_prompt word_count
  /\ (exists front,
        prompt = front ++ exemplars playful sentiment
                 ++ lit "
Original Prompt: " ++ original_prompt
        /\ contains (lit "Exactly " ++ str_of_int word_count ++ lit " words (±20)")
             front = true)
  /\ contains (lit "Exactly " ++ str_of_int word_count ++ lit " words (±20)")
       prompt = true
  /\ int_of_str (str_of_int word_count) = Some word_count
  /\ contains (lit "Exactly 200 words (±20)")
       (generation_prompt rt sentiment original_prompt 200 style_mode) = true
  /\ contains (lit "Exactly 50 words (±20)")
       (generation_prompt rt sentiment original_prompt 50 style_mode) = true
  /\ contains (lit "Exactly 500 words (±20)")
       (generation_prompt rt sentiment original_prompt 500 style_mode) = true.
Proof.
  intros _ playful prompt. subst prompt.
  assert (Hfront : forall wc playful',
            contains (lit "Exactly " ++ str_of_int wc ++ lit " words (±20)")
              (indent ++ task_framing wc
               ++ indent ++ tone_directive sentiment
               ++ indent ++ length_directive wc
               ++ indent ++ structure_directive
               ++ indent ++ style_directives playful' sentiment
               ++ lit "

Examples:
") = true).
  { intros wc playful'.
    replace (indent ++ task_framing wc
             ++ indent ++ tone_directive sentiment
             ++ indent ++ length_directive wc
             ++ indent ++ structure_directive
             ++ indent ++ style_directives playful' sentiment
             ++ lit "

Examples:
")
      with ((indent ++ task_framing wc ++ indent ++ tone_directive sentiment
             ++ indent ++ lit "- ")
            ++ (lit "Exactly " ++ str_of_int wc ++ lit " words (±20)")
            ++ (lit "." ++ indent ++ structure_directive
                ++ indent ++ style_directives playful' sentiment
                ++ lit "

Examples:
"))
      by (unfold length_directive; rewrite <- !app_assoc; vm_compute; reflexivity).
    apply contains_infix. }
  assert (Hcontains : forall wc playful',
            contains (lit "Exactly " ++ str_of_int wc ++ lit " words (±20)")
              (sections_in_order playful' sentiment original_prompt wc) = true).
  { intros wc playful'.
    replace (sections_in_order playful' sentiment original_prompt wc)
      with ((indent ++ task_framing wc ++ indent ++ tone_directive sentiment
             ++ indent ++ lit "- ")
            ++ (lit "Exactly " ++ str_of_int wc ++ lit " words (±20)")
            ++ (lit "." ++ indent ++ structure_directive
                ++ indent ++ style_directives playful' sentiment
                ++ lit "

Examples:
" ++ exemplars playful' sentiment ++ lit "
" ++ subject_matter original_prompt))
      by (unfold sections_in_order, length_directive; rewrite <- !app_assoc;
          vm_compute; reflexivity).
    apply contains_infix. }
  split; [apply generation_prompt_sections|].
  split.
  - exists (indent ++ task_framing word_count
            ++ indent ++ tone_directive sentiment
            ++ indent ++ length_directive word_count
            ++ indent ++ structure_directive
            ++ indent ++ style_directives playful sentiment
            ++ lit "

Examples:
").
    split; [|apply Hfront].
    rewrite generation_prompt_sections. unfold sections_in_order, subject_matter.
    fold playful. rewrite <- !app_assoc. vm_compute. reflexivity.
  - split; [rewrite generation_prompt_sections; apply Hcontains|].
    split; [apply int_of_str_of_int|].
    split; [|split]; rewrite generation_prompt_sections.
    + replace (lit "Exactly 200 words (±20)")
        with (lit "Exactly " ++ str_of_int 200 ++ lit " words (±20)")
        by (vm_compute; reflexivity).
      apply Hcontains.
    + replace (lit "Exactly 50 words (±20)")
        with (lit "Exactly " ++ str_of_int 50 ++ lit " words (±20)")
        by (vm_compute; reflexivity).
      apply Hcontains.
    + replace (lit "Exactly 500 words (±20)")
        with (lit "Exactly " ++ str_of_int 500 ++ lit " words (±20)")
        by (vm_compute; reflexivity).
      apply Hcontains.
Qed.

Lemma C8_witness_essay_of_300_words :
  let playful :=
    str_eqb (normalize_style example_runtime (lit "Normal (Formal)")) (lit "ELI10") in
  let prompt :=
    generation_prompt example_runtime positive (lit "I love sunny days") 300
      (lit "Normal (Formal)") in
  prompt = sections_in_order playful positive (lit "I love sunny days") 300
  /\ (exists front,
        prompt = front ++ exemplars playful positive
                 ++ lit "
Original Prompt: " ++ lit "I love sunny days"
        /\ contains (lit "Exactly " ++ str_of_int 300 ++ lit " words (±20)")
             front = true)
  /\ contains (lit "Exactly " ++ str_of_int 300 ++ lit " words (±20)")
       prompt = true
  /\ int_of_str (str_of_int 300) = Some 300%Z
  /\ contains (lit "Exactly 200 words (±20)")
       (generation_prompt example_runtime positive (lit "I love sunny days") 200
          (lit "Normal (Formal)")) = true
  /\ contains (lit "Exactly 50 words (±20)")
       (generation_prompt example_runtime positive (lit "I love sunny days") 50
          (lit "Normal (Formal)")) = true
  /\ contains (lit "Exactly 500 words (±20)")
       (generation_prompt example_runtime positive (lit "I love sunny days") 500
          (lit "Normal (Formal)")) = true.
Proof.
  apply (C8_prompt_sections_in_order example_runtime positive
           (lit "I love sunny days") 300 (lit "Normal (Formal)")).
  vm_compute. reflexivity.
Defined.

(** ** The example banks *)

(** A lookup that misses answers what the lookup of "neutral" answers. *)
Lemma get_or_neutral_missing (examples : list (str * str)) (sentiment : str) :
  examples_get examples sentiment = None ->
  get_or_neutral examples sentiment = get_or_neutral examples neutral.
Proof.
  intros H. unfold get_or_neutral. rewrite H.
  by destruct (examples_get examples neutral).
Qed.

Lemma not_label_neq (sentiment : str) :
  ~ is_label sentiment ->
  str_eqb positive sentiment = false /\ str_eqb negative sentiment = false
  /\ str_eqb neutral sentiment = false.
Proof.
  intros H. repeat split; apply str_eqb_neq; intros <-; apply H; unfold is_label; auto.
Qed.

Lemma examples_get_not_label (sentiment : str) :
  ~ is_label sentiment ->
  examples_get eli10_examples sentiment = None
  /\ examples_get normal_examples sentiment = None.
Proof.
  intros (H1 & H2 & H3)%not_label_neq.
  unfold eli10_examples, normal_examples. cbn [examples_get].
  by rewrite H1, H2, H3.
Qed.

(** C9: for every sentiment that is none of the three labels (and a word
    count Python can write in the prompt), [get_eli10_examples] answers the
    "neutral" entry of its bank, the mild-weather exemplar with the cloud
    joke, [get_normal_examples] answers the "neutral" entry of its bank, the
    formal mild-weather exemplar, and the ELI10 branch uses the neutral
    flair, "Keep it balanced with 2-3 light, observational jokes ...".  So
    the ELI10 prompt is the base instructions, the ELI10 flair, the neutral
    flair, the neutral playful exemplar and the original text; the Normal
    prompt ends with the neutral formal exemplar and the original text; and
    [generate_sentiment_aligned_text] returns normally. *)
Theorem C9_unknown_sentiment_falls_back_to_neutral (rt : Runtime) (model : Remote)
    (sentiment original_prompt : str) (word_count : Z) (style_mode : str)
    (st : state) :
  ~ is_label sentiment ->
  formattable word_count ->
  let neutral_playful_exemplar := lit "
    - Original (neutral): " ++ DQ ++ lit "The weather today is mild." ++ DQ ++ lit "
      Generated (neutral): " ++ DQ ++ lit "Today's weather is just right, not too hot or too cold—like wearing your favorite cozy sweater outside 🌤️. Clouds float by like fluffy sheep, and the breeze is gentle, perfect for kicking a ball or reading a book under a tree 📖. It's a normal day where you can do whatever you want without sweating or shivering, keeping things simple and easy 🤔. Why did the cloud go to school? To get a little 'higher' education! ☁️ Either way, it's a chill day—no drama, just steady and nice, like your best buddy who's always there without stealing the show." ++ DQ ++ lit "
        " in
  let neutral_formal_exemplar := lit "
    - Original (neutral): " ++ DQ ++ lit "The weather today is mild." ++ DQ ++ lit "
      Generated (neutral): " ++ DQ ++ lit "The current weather conditions are mild, characterized by moderate temperatures and low humidity. This equilibrium supports a variety of daily activities, from outdoor errands to indoor pursuits, without the discomfort of extremes. Light cloud cover provides intermittent shade, and a subtle breeze maintains comfort levels. Overall, it presents an unremarkable yet conducive environment for routine proceedings." ++ DQ ++ lit "
        " in
  let neutral_flair :=
    lit "Keep it balanced with 2-3 light, observational jokes if they fit naturally, and add neutral emojis (like 📖, 🌤️, 🤔) sparingly for visual pop." in
  get_eli10_examples sentiment = neutral_playful_exemplar
  /\ get_normal_examples sentiment = neutral_formal_exemplar
  /\ eli10_extra_flair sentiment = neutral_flair
  /\ generation_prompt rt sentiment original_prompt word_count (lit "ELI10") =
     base_instructions sentiment word_count ++ flair
     ++ lit " - " ++ neutral_flair ++ lit "

Examples:
" ++ neutral_playful_exemplar ++ lit "
Original Prompt: " ++ original_prompt
  /\ generation_prompt rt sentiment original_prompt word_count (lit "Normal") =
     base_instructions sentiment word_count ++ normal_extra_flair ++ lit "

Examples:
" ++ neutral_formal_exemplar ++ lit "
Original Prompt: " ++ original_prompt
  /\ exists v,
       fst (generate_sentiment_aligned_text rt model sentiment original_prompt
              word_count style_mode st) = Returned v.
Proof.
  intros Hnot _. cbv zeta.
  destruct (examples_get_not_label sentiment Hnot) as [He Hn].
  destruct (not_label_neq sentiment Hnot) as (H1 & H2 & _).
  pose proof (get_or_neutral_missing eli10_examples sentiment He) as Hplayful.
  pose proof (get_or_neutral_missing normal_examples sentiment Hn) as Hformal.
  fold (get_eli10_examples sentiment) in Hplayful.
  fold (get_normal_examples sentiment) in Hformal.
  assert (Hflair : eli10_extra_flair sentiment = eli10_extra_flair neutral).
  { unfold eli10_extra_flair.
    assert (str_eqb sentiment positive = false) as ->
      by (apply str_eqb_neq; intros ->; by rewrite str_eqb_refl in H1).
    assert (str_eqb sentiment negative = false) as ->
      by (apply str_eqb_neq; intros ->; by rewrite str_eqb_refl in H2).
    assert (str_eqb neutral positive = false) as -> by (vm_compute; reflexivity).
    assert (str_eqb neutral negative = false) as -> by (vm_compute; reflexivity).
    reflexivity. }
  assert (Hyes : str_eqb (normalize_style rt (lit "ELI10")) (lit "ELI10") = true)
    by (vm_compute; reflexivity).
  assert (Hno : str_eqb (normalize_style rt (lit "Normal")) (lit "ELI10") = false)
    by (vm_compute; reflexivity).
  match goal with
  | |- ?P1 /\ ?P2 /\ ?P3 /\ _ =>
      assert (Hplayful' : P1) by (rewrite Hplayful; vm_compute; reflexivity);
      assert (Hformal' : P2) by (rewrite Hformal; vm_compute; reflexivity);
      assert (Hflair' : P3) by (rewrite Hflair; vm_compute; reflexivity)
  end.
  split; [exact Hplayful'|]. split; [exact Hformal'|]. split; [exact Hflair'|].
  split; [|split].
  - unfold generation_prompt. rewrite Hyes. unfold eli10_branch.
    rewrite Hplayful', Hflair', <- !app_assoc. vm_compute. reflexivity.
  - unfold generation_prompt. rewrite Hno. unfold normal_branch.
    rewrite Hformal', <- !app_assoc. vm_compute. reflexivity.
  - destruct (generate_returns rt model sentiment original_prompt word_count
                style_mode st) as (v & shown & ->).
    by exists v.
Qed.

Lemma C9_witness_unlisted_sentiment :
  get_eli10_examples (lit "angry") = get_eli10_examples neutral
  /\ get_normal_examples (lit "angry") = get_normal_examples neutral
  /\ eli10_extra_flair (lit "angry") =
     lit "Keep it balanced with 2-3 light, observational jokes if they fit naturally, and add neutral emojis (like 📖, 🌤️, 🤔) sparingly for visual pop."
  /\ exists v,
       fst (generate_sentiment_aligned_text example_runtime
              (always (Text (lit "Some prose."))) (lit "angry") (lit "Rain again")
              100 (lit "ELI10") initial_state) = Returned v.
Proof.
  assert (Hnot : ~ is_label (lit "angry"))
    by (intros [H|[H|H]]; vm_compute in H; discriminate).
  assert (Hf : formattable 100) by (vm_compute; reflexivity).
  pose proof (C9_unknown_sentiment_falls_back_to_neutral example_runtime
                (always (Text (lit "Some prose."))) (lit "angry") (lit "Rain again")
                100 (lit "ELI10") initial_state Hnot Hf) as H.
  cbv zeta in H. destruct H as (H1 & H2 & H3 & _ & _ & H6).
  split; [rewrite H1; vm_compute; reflexivity|].
  split; [rewrite H2; vm_compute; reflexivity|].
  split; [exact H3|exact H6].
Defined.

Lemma str_eqb_sym (a b : str) : str_eqb a b = str_eqb b a.
Proof.
  destruct (str_eqb a b) eqn:E; symmetry.
  - apply str_eqb_eq. apply str_eqb_eq in E. congruence.
  - apply str_eqb_neq. apply str_eqb_neq in E. congruence.
Qed.

(** A bank with the three labels as keys: the entry of the sentiment, and
    the "neutral" entry for every other sentiment. *)
Lemma get_or_neutral_bank (p n u sentiment : str) :
  get_or_neutral [(positive, p); (negative, n); (neutral, u)] sentiment =
  if str_eqb sentiment positive then p
  else if str_eqb sentiment negative then n
  else u.
Proof.
  unfold get_or_neutral. cbn [examples_get].
  replace (str_eqb positive neutral) with false by (vm_compute; reflexivity).
  replace (str_eqb negative neutral) with false by (vm_compute; reflexivity).
  rewrite (str_eqb_refl neutral).
  rewrite (str_eqb_sym positive sentiment), (str_eqb_sym negative sentiment).
  destruct (str_eqb sentiment positive); [reflexivity|].
  destruct (str_eqb sentiment negative); [reflexivity|].
  destruct (str_eqb neutral sentiment); reflexivity.
Qed.

(** C10: for every style mode whose normalization is not exactly "ELI10",
    the empty string and unrecognized strings included (and a word count
    Python can write in the prompt), the prompt is the Normal branch
    followed by the original text: the base instructions, the formal
    directive ending in "No slang, jokes, or emojis.", the formal exemplar
    of the sentiment (the beach exemplar for "positive", the traffic
    exemplar for "negative", the mild-weather exemplar otherwise) and the
    original text; and [generate_sentiment_aligned_text] returns
    normally. *)
Theorem C10_formal_is_the_default_style (rt : Runtime) (model : Remote)
    (sentiment original_prompt : str) (word_count : Z) (style_mode : str)
    (st : state) :
  normalize_style rt style_mode <> lit "ELI10" ->
  formattable word_count ->
  let formal_exemplar :=
    if str_eqb sentiment positive then lit "
    - Original (positive): " ++ DQ ++ lit "I love sunny days at the beach." ++ DQ ++ lit "
      Generated (positive): " ++ DQ ++ lit "Sunny days at the beach evoke a profound sense of joy and relaxation. The golden sunlight bathes the shoreline in warmth, creating an ideal setting for leisurely walks along the water's edge. Families gather to enjoy the rhythmic crash of waves, while the gentle sea breeze carries the faint scent of salt and sunscreen. Such moments remind us of nature's ability to recharge the spirit, fostering connections with loved ones and inspiring a deeper appreciation for life's simple pleasures." ++ DQ ++ lit "
        "
    else if str_eqb sentiment negative then lit "
    - Original (negative): " ++ DQ ++ lit "Traffic jams ruin my commute." ++ DQ ++ lit "
      Generated (negative): " ++ DQ ++ lit "Traffic jams transform an ordinary commute into an exasperating ordeal, marked by stagnation and mounting irritation. Vehicles inch forward amid the cacophony of impatient horns, while exhaust fumes thicken the air, amplifying the sense of confinement. Precious time slips away in this involuntary standstill, disrupting schedules and eroding productivity. Ultimately, these delays underscore the vulnerabilities of urban mobility, leaving commuters drained and resentful upon arrival." ++ DQ ++ lit "
        "
    else lit "
    - Original (neutral): " ++ DQ ++ lit "The weather today is mild." ++ DQ ++ lit "
      Generated (neutral): " ++ DQ ++ lit "The current weather conditions are mild, characterized by moderate temperatures and low humidity. This equilibrium supports a variety of daily activities, from outdoor errands to indoor pursuits, without the discomfort of extremes. Light cloud cover provides intermittent shade, and a subtle breeze maintains comfort levels. Overall, it presents an unremarkable yet conducive environment for routine proceedings." ++ DQ ++ lit "
        " in
  let prompt := generation_prompt rt sentiment original_prompt word_count style_mode in
  prompt = normal_branch sentiment word_count ++ lit "
Original Prompt: " ++ original_prompt
  /\ prompt = base_instructions sentiment word_count ++ lit "
        - Use a formal, professional tone suitable for adults: Clear, concise language with varied sentence structure. No slang, jokes, or emojis.
        " ++ lit "

Examples:
" ++ formal_exemplar ++ lit "
Original Prompt: " ++ original_prompt
  /\ contains (lit "No slang, jokes, or emojis.") prompt = true
  /\ get_normal_examples sentiment = formal_exemplar
  /\ contains formal_exemplar prompt = true
  /\ exists v,
       fst (generate_sentiment_aligned_text rt model sentiment original_prompt
              word_count style_mode st) = Returned v.
Proof.
  intros Hne _. cbv zeta.
  assert (Hp : generation_prompt rt sentiment original_prompt word_count style_mode
               = normal_branch sentiment word_count ++ lit "
Original Prompt: " ++ original_prompt).
  { unfold generation_prompt.
    apply str_eqb_neq in Hne. rewrite Hne. reflexivity. }
  match goal with
  | |- _ /\ _ /\ _ /\ ?P /\ _ =>
      assert (Hex : P)
        by (unfold get_normal_examples, normal_examples;
            rewrite get_or_neutral_bank;
            destruct (str_eqb sentiment positive); [vm_compute; reflexivity|];
            destruct (str_eqb sentiment negative); vm_compute; reflexivity)
  end.
  rewrite Hp. split; [reflexivity|]. split; [|split; [|split; [exact Hex|split]]].
  - unfold normal_branch. rewrite Hex, <- !app_assoc. vm_compute. reflexivity.
  - unfold normal_branch.
    replace normal_extra_flair
      with (lit "
        - Use a formal, professional tone suitable for adults: Clear, concise language with varied sentence structure. "
            ++ lit "No slang, jokes, or emojis." ++ lit "
        ")
      by (vm_compute; reflexivity).
    rewrite <- !app_assoc.
    rewrite (app_assoc (base_instructions sentiment word_count)).
    apply contains_infix.
  - rewrite <- Hex. unfold normal_branch.
    rewrite (app_assoc normal_extra_flair),
      (app_assoc (base_instructions sentiment word_count)).
    rewrite <- (app_assoc _ (get_normal_examples sentiment)).
    apply contains_infix.
  - destruct (generate_returns rt model sentiment original_prompt word_count
                style_mode st) as (v & shown & ->).
    by exists v.
Qed.

Lemma C10_witness_empty_style_mode :
  let prompt := generation_prompt example_runtime positive (lit "Hello there") 50 [] in
  prompt = normal_branch positive 50 ++ lit "
Original Prompt: " ++ lit "Hello there"
  /\ contains (lit "No slang, jokes, or emojis.") prompt = true
  /\ contains (get_normal_examples positive) prompt = true
  /\ get_normal_examples positive = lit "
    - Original (positive): " ++ DQ ++ lit "I love sunny days at the beach." ++ DQ ++ lit "
      Generated (positive): " ++ DQ ++ lit "Sunny days at the beach evoke a profound sense of joy and relaxation. The golden sunlight bathes the shoreline in warmth, creating an ideal setting for leisurely walks along the water's edge. Families gather to enjoy the rhythmic crash of waves, while the gentle sea breeze carries the faint scent of salt and sunscreen. Such moments remind us of nature's ability to recharge the spirit, fostering connections with loved ones and inspiring a deeper appreciation for life's simple pleasures." ++ DQ ++ lit "
        "
  /\ exists v,
       fst (generate_sentiment_aligned_text example_runtime
              (always (Text (lit "Some prose."))) positive (lit "Hello there") 50 []
              initial_state) = Returned v.
Proof.
  assert (Hne : normalize_style example_runtime [] <> lit "ELI10")
    by (vm_compute; discriminate).
  assert (Hf : formattable 50) by (vm_compute; reflexivity).
  pose proof (C10_formal_is_the_default_style example_runtime
                (always (Text (lit "Some prose."))) positive (lit "Hello there") 50 []
                initial_state Hne Hf) as H.
  cbv zeta in H. destruct H as (H1 & _ & H3 & H4 & H5 & H6).
  cbv zeta. split; [exact H1|]. split; [exact H3|].
  split; [rewrite H4; exact H5|].
  split; [rewrite H4; vm_compute; reflexivity|exact H6].
Defined.

(** * Further properties *)

(** ** The cache around the classifier *)

(** When the cache has no live entry the function runs: it makes no call
    for a short text and one call otherwise, it never sleeps, and what it
    returned and showed is stored for 300 seconds. *)
Lemma get_sentiment_ran (rt : Runtime) (model : Remote) (text : str) (st : state) :
  cache_lookup text st = None ->
  exists v shown reqs,
    ((length (strip text) < 3)%nat /\ reqs = [] /\ v = neutral /\ shown = []
     \/ (3 <= length (strip text))%nat /\ reqs = [sentiment_request text])
    /\ get_sentiment rt model text st =
       (Returned v,
        {| remote_calls := remote_calls st ++ reqs;
           st_errors := st_errors st ++ shown;
           sleeps := sleeps st;
           clock := clock st;
           cache := <[text := {| cached_value := v; cached_elements := shown;
                                 expires := (clock st + 300)%Z |}]> (cache st) |}).
Proof.
  intros Hmiss.
  destruct (Nat.lt_ge_cases (length (strip text)) 3) as [Hlen|Hlen].
  - exists neutral, [], []. split; [left; auto|].
    erewrite get_sentiment_miss;
      [|exact Hmiss|apply get_sentiment_body_short; exact Hlen].
    unfold store. simpl. rewrite skipn_all, !app_nil_r. reflexivity.
  - destruct (get_sentiment_body_long rt model text st Hlen) as (v & shown & Hb).
    exists v, shown, [sentiment_request text]. split; [right; auto|].
    erewrite get_sentiment_miss; [|exact Hmiss|exact Hb].
    unfold store, after_call. simpl. rewrite drop_app_length. reflexivity.
Qed.

Lemma reuse_within_ttl (rt : Runtime) (model model' : Remote) (text v : str)
    (st st1 : state) (seconds : Z) :
  cache_lookup text st = None ->
  get_sentiment rt model text st = (Returned v, st1) ->
  (0 <= seconds < 300)%Z ->
  exists st2,
    get_sentiment rt model' text (advance seconds st1) = (Returned v, st2)
    /\ remote_calls st2 = remote_calls st1
    /\ sleeps st2 = sleeps st1
    /\ cache st2 = cache st1
    /\ st_errors st2 =
       st_errors st1 ++ skipn (length (st_errors st)) (st_errors st1).
Proof.
  intros Hmiss Hrun Hsec.
  destruct (get_sentiment_ran rt model text st Hmiss) as (v0 & shown & reqs & _ & Hfirst).
  rewrite Hfirst in Hrun. injection Hrun as <- <-.
  match goal with |- context [advance seconds ?s] => set (st1 := s) end.
  assert (Hhit : cache_lookup text (advance seconds st1) =
                 Some {| cached_value := v0; cached_elements := shown;
                         expires := (clock st + 300)%Z |}).
  { unfold cache_lookup, advance, st1. simpl. rewrite lookup_insert_eq. simpl.
    destruct (Z.ltb_spec (clock st + seconds) (clock st + 300)) as [_|Hge];
      [reflexivity|lia]. }
  unfold get_sentiment at 1. rewrite (cache_data_hit _ _ _ _ _ Hhit).
  eexists. split; [reflexivity|]. unfold st1. simpl.
  rewrite drop_app_length. repeat split.
Qed.

(** Memoisation: once the function has run for a text, asking again for the
    same text less than 300 seconds later returns the same answer without a
    remote call, whatever the model would reply now, and shows again the
    messages of the first run. *)
Theorem cached_answer_is_reused (rt : Runtime) (model model' : Remote) (text v : str)
    (st st1 : state) (seconds : Z) :
  cache_lookup text st = None ->
  get_sentiment rt model text st = (Returned v, st1) ->
  (0 <= seconds < 300)%Z ->
  exists st2,
    get_sentiment rt model' text (advance seconds st1) = (Returned v, st2)
    /\ remote_calls st2 = remote_calls st1
    /\ sleeps st2 = sleeps st1
    /\ cache st2 = cache st1
    /\ st_errors st2 =
       st_errors st1 ++ skipn (length (st_errors st)) (st_errors st1).
Proof. apply reuse_within_ttl. Qed.

Lemma cached_answer_is_reused_witness :
  exists st2,
    get_sentiment example_runtime (always (Text (structured_reply negative)))
      (lit "What a lovely morning")
      (advance 299
         (snd (get_sentiment example_runtime (always (Text (structured_reply positive)))
                 (lit "What a lovely morning") initial_state)))
    = (Returned positive, st2)
    /\ length (remote_calls st2) = 1%nat.
Proof.
  destruct (cached_answer_is_reused example_runtime
              (always (Text (structured_reply positive)))
              (always (Text (structured_reply negative)))
              (lit "What a lovely morning") positive initial_state
              (snd (get_sentiment example_runtime
                      (always (Text (structured_reply positive)))
                      (lit "What a lovely morning") initial_state))
              299)
    as (st2 & H1 & H2 & _).
  - reflexivity.
  - vm_compute. reflexivity.
  - lia.
  - exists st2. split; [exact H1|]. rewrite H2. vm_compute. reflexivity.
Defined.

(** Expiry: 300 seconds or more after the function ran for a text of three
    characters or more, the same text goes to the remote model again. *)
Theorem cached_answer_expires (rt : Runtime) (model model' : Remote) (text v : str)
    (st st1 : state) (seconds : Z) :
  cache_lookup text st = None ->
  get_sentiment rt model text st = (Returned v, st1) ->
  (3 <= length (strip text))%nat ->
  (300 <= seconds)%Z ->
  remote_calls (snd (get_sentiment rt model' text (advance seconds st1))) =
  remote_calls st1 ++ [sentiment_request text].
Proof.
  intros Hmiss Hrun Hlen Hsec.
  destruct (get_sentiment_ran rt model text st Hmiss) as (v0 & shown & reqs & _ & Hfirst).
  rewrite Hfirst in Hrun. injection Hrun as <- <-.
  match goal with |- context [advance seconds ?s] => set (st1 := s) end.
  assert (Hmiss' : cache_lookup text (advance seconds st1) = None).
  { unfold cache_lookup, advance, st1. simpl. rewrite lookup_insert_eq. simpl.
    destruct (Z.ltb_spec (clock st + seconds) (clock st + 300)) as [Hlt|_]; [lia|reflexivity]. }
  destruct (get_sentiment_ran rt model' text (advance seconds st1) Hmiss')
    as (v1 & shown1 & reqs1 & [(Hshort & _)|(_ & ->)] & ->); [lia|].
  reflexivity.
Qed.

Lemma cached_answer_expires_witness :
  length (remote_calls
            (snd (get_sentiment example_runtime (always (Text (structured_reply negative)))
                    (lit "What a lovely morning")
                    (advance 300
                       (snd (get_sentiment example_runtime
                               (always (Text (structured_reply positive)))
                               (lit "What a lovely morning") initial_state)))))) = 2%nat.
Proof.
  rewrite (cached_answer_expires example_runtime
             (always (Text (structured_reply positive)))
             (always (Text (structured_reply negative)))
             (lit "What a lovely morning") positive initial_state
             (snd (get_sentiment example_runtime
                     (always (Text (structured_reply positive)))
                     (lit "What a lovely morning") initial_state))
             300).
  - vm_compute. reflexivity.
  - reflexivity.
  - vm_compute. reflexivity.
  - vm_compute. lia.
  - lia.
Defined.

(** A failure is memoised like an answer: after a call that raised, the same
    text gets "neutral" for the next 300 seconds without the remote model
    being asked again, even if it would answer now. *)
Theorem failed_classification_is_cached (rt : Runtime) (model model' : Remote)
    (text : str) (e : exn) (st : state) (seconds : Z) :
  cache_lookup text st = None ->
  (3 <= length (strip text))%nat ->
  model (length (remote_calls st)) (sentiment_request text) = Fails e ->
  (0 <= seconds < 300)%Z ->
  exists st2,
    get_sentiment rt model' text
      (advance seconds (snd (get_sentiment rt model text st))) = (Returned neutral, st2)
    /\ remote_calls st2 = remote_calls st ++ [sentiment_request text].
Proof.
  intros Hmiss Hlen Hfail Hsec.
  pose proof (get_sentiment_miss rt model text st _ _ Hmiss
                (get_sentiment_body_fails rt model text st e Hlen Hfail)) as Hrun.
  destruct (reuse_within_ttl rt model model' text neutral st _ seconds Hmiss Hrun Hsec)
    as (st2 & H2 & Hcalls & _).
  exists st2. rewrite Hrun. simpl. split; [exact H2|]. rewrite Hcalls. reflexivity.
Qed.

Lemma failed_classification_is_cached_witness :
  exists st2,
    get_sentiment example_runtime (always (Text (structured_reply positive)))
      (lit "What a lovely morning")
      (advance 60
         (snd (get_sentiment example_runtime
                 (always (Fails (RemoteError (lit "429 quota exceeded"))))
                 (lit "What a lovely morning") initial_state)))
    = (Returned neutral, st2)
    /\ remote_calls st2 = [sentiment_request (lit "What a lovely morning")].
Proof.
  apply (failed_classification_is_cached example_runtime
           (always (Fails (RemoteError (lit "429 quota exceeded"))))
           (always (Text (structured_reply positive)))
           (lit "What a lovely morning") (RemoteError (lit "429 quota exceeded"))
           initial_state 60).
  - reflexivity.
  - vm_compute. lia.
  - reflexivity.
  - lia.
Defined.

Lemma cache_lookup_frame (key : str) (st st' : state) :
  cache st' !! key = cache st !! key -> clock st' = clock st ->
  cache_lookup key st' = cache_lookup key st.
Proof. intros Hc Ht. unfold cache_lookup. by rewrite Hc, Ht. Qed.

(** The cache is keyed by the exact text: classifying one text, or
    generating, never changes what the cache answers for another text. *)
Theorem other_texts_keep_their_entry (rt : Runtime) (model : Remote)
    (text other sentiment original_prompt : str) (word_count : Z) (style_mode : str)
    (st : state) :
  other <> text ->
  cache_lookup other (snd (get_sentiment rt model text st)) = cache_lookup other st
  /\ cache_lookup other
       (snd (generate_sentiment_aligned_text rt model sentiment original_prompt
               word_count style_mode st)) = cache_lookup other st.
Proof.
  intros Hne. split.
  - destruct (cache_lookup text st) as [entry|] eqn:Hc.
    + unfold get_sentiment. rewrite (cache_data_hit _ _ _ _ _ Hc). reflexivity.
    + destruct (get_sentiment_ran rt model text st Hc) as (v & shown & reqs & _ & ->).
      apply cache_lookup_frame; simpl; [|reflexivity].
      apply lookup_insert_ne. congruence.
  - destruct (generate_returns rt model sentiment original_prompt word_count
                style_mode st) as (v & shown & ->).
    reflexivity.
Qed.

Lemma other_texts_keep_their_entry_witness :
  cache_lookup (lit " good day")
    (snd (get_sentiment example_runtime (always (Text (structured_reply positive)))
            (lit "good day") initial_state)) = None.
Proof.
  apply (other_texts_keep_their_entry example_runtime
           (always (Text (structured_reply positive))) (lit "good day")
           (lit " good day") neutral [] 0 [] initial_state).
  vm_compute. discriminate.
Defined.

(** ** Replies of the wrong shape *)

(** A reply that decodes to anything but an object (a list, a number, a
    bare string such as ["positive"], [null]) has no [get]: the
    [AttributeError] is caught, its message shown, and the answer is
    "neutral". *)
Theorem non_object_reply_is_neutral (rt : Runtime) (model : Remote) (text t : str)
    (v : json) (st : state) :
  cache_lookup text st = None ->
  (3 <= length (strip text))%nat ->
  model (length (remote_calls st)) (sentiment_request text) = Text t ->
  strip t <> [] ->
  json_loads rt (strip t) = inr v ->
  (forall d, v <> JDict d) ->
  fst (get_sentiment rt model text st) = Returned neutral
  /\ st_errors (snd (get_sentiment rt model text st)) =
     st_errors st
       ++ [lit "Error in sentiment analysis: "
           ++ lit "'" ++ type_name v ++ lit "' object has no attribute '"
           ++ lit "get" ++ lit "'"].
Proof.
  intros Hmiss Hlen Hr Ht Hj Hv.
  assert (Hb : get_sentiment_body rt model text st =
               (Returned neutral,
                after_call (sentiment_request text)
                  [lit "Error in sentiment analysis: "
                   ++ exn_str (attribute_error v (lit "get"))] st)).
  { unfold get_sentiment_body. apply Nat.ltb_ge in Hlen. rewrite Hlen.
    unfold try_except, bind, generate_content, loads. rewrite Hr.
    destruct (strip t) as [|c r]; [congruence|]. rewrite Hj.
    unfold get. destruct v; try reflexivity. exfalso. eapply Hv. reflexivity. }
  rewrite (get_sentiment_miss rt model text st _ _ Hmiss Hb). simpl.
  split; reflexivity.
Qed.

Lemma non_object_reply_is_neutral_witness :
  fst (get_sentiment example_runtime (always (Text (DQ ++ positive ++ DQ)))
         (lit "What a lovely morning") initial_state) = Returned neutral
  /\ st_errors
       (snd (get_sentiment example_runtime (always (Text (DQ ++ positive ++ DQ)))
               (lit "What a lovely morning") initial_state)) =
     [lit "Error in sentiment analysis: 'str' object has no attribute 'get'"].
Proof.
  destruct (non_object_reply_is_neutral example_runtime
              (always (Text (DQ ++ positive ++ DQ))) (lit "What a lovely morning")
              (DQ ++ positive ++ DQ) (JStr positive) initial_state)
    as [H1 H2].
  - reflexivity.
  - vm_compute. lia.
  - reflexivity.
  - vm_compute. discriminate.
  - vm_compute. reflexivity.
  - discriminate.
  - split; [exact H1|]. rewrite H2. vm_compute. reflexivity.
Defined.

(** ** The Generate button *)

Lemma get_sentiment_returns (rt : Runtime) (model : Remote) (text : str) (st : state) :
  exists v st1 reqs,
    get_sentiment rt model text st = (Returned v, st1)
    /\ remote_calls st1 = remote_calls st ++ reqs
    /\ (length reqs <= 1)%nat
    /\ sleeps st1 = sleeps st.
Proof.
  destruct (cache_lookup text st) as [entry|] eqn:Hc.
  - exists (cached_value entry), (replay (cached_elements entry) st), [].
    unfold get_sentiment. rewrite (cache_data_hit _ _ _ _ _ Hc). simpl.
    rewrite app_nil_r. auto.
  - destruct (get_sentiment_ran rt model text st Hc)
      as (v & shown & reqs & Hreqs & ->).
    eexists v, _, reqs. simpl. repeat split.
    destruct Hreqs as [(_ & -> & _)|(_ & ->)]; simpl; lia.
Qed.

(** Along a run a short text is answered "neutral" without a call, by the
    cache or by the function. *)
Lemma get_sentiment_short_reachable (rt : Runtime) (model : Remote) (text : str)
    (st : state) :
  reachable rt model st ->
  (length (strip text) < 3)%nat ->
  exists st1,
    get_sentiment rt model text st = (Returned neutral, st1)
    /\ remote_calls st1 = remote_calls st.
Proof.
  intros Hreach Hlen.
  destruct (cache_lookup text st) as [entry|] eqn:Hc.
  - destruct (reachable_short_entries rt model st Hreach text entry
                (cache_lookup_Some _ _ _ Hc) Hlen) as [Hv _].
    unfold get_sentiment. rewrite (cache_data_hit _ _ _ _ _ Hc), Hv.
    eexists. split; reflexivity.
  - rewrite (get_sentiment_miss rt model text st _ _ Hc
               (get_sentiment_body_short rt model text st Hlen)).
    eexists. split; reflexivity.
Qed.

(** From the click to the caption (the validation, the sentiment, the
    generation and the display; the export that follows the caption is not
    part of [generate_button]) the button, with a word count of the slider,
    never raises and never sleeps; it makes at most two remote calls; and
    for a prompt that is blank once trimmed it makes none, leaves the state
    (the cache included) as it was and shows only the warning. *)
Theorem generate_button_call_budget (rt : Runtime) (model : Remote)
    (manual_sentiment selected_sentiment : str) (word_count : Z)
    (style_mode original_prompt : str) (st : state) :
  (50 <= word_count <= 500)%Z ->
  exists elements st' reqs,
    generate_button rt model manual_sentiment selected_sentiment word_count
      style_mode original_prompt st = (Returned elements, st')
    /\ remote_calls st' = remote_calls st ++ reqs
    /\ (length reqs <= 2)%nat
    /\ sleeps st' = sleeps st
    /\ (strip original_prompt = [] ->
        st' = st /\ elements = [Warning (lit "Please enter a prompt.")]).
Proof.
  intros _. unfold generate_button.
  destruct (strip original_prompt) as [|c r] eqn:Hp.
  - exists [Warning (lit "Please enter a prompt.")], st, [].
    unfold ret. rewrite app_nil_r. cbn [length]. repeat split; try lia; auto.
  - unfold bind, ret.
    destruct (str_eqb manual_sentiment (lit "Manual")).
    + cbn [fst snd].
      destruct (generate_returns rt model selected_sentiment original_prompt word_count
                  (clean_style rt style_mode) st) as (v & shown & ->).
      eexists _, _, [_]. split; [reflexivity|].
      cbn [after_call remote_calls sleeps length].
      repeat split; try lia; try discriminate.
    + destruct (get_sentiment_returns rt model original_prompt st)
        as (s & st1 & reqs & -> & Hcalls & Hlen & Hsleep).
      cbn [fst snd].
      destruct (generate_returns rt model s original_prompt word_count
                  (clean_style rt style_mode) st1) as (v & shown & ->).
      eexists _, _, (reqs ++ [_]). split; [reflexivity|].
      cbn [after_call remote_calls sleeps].
      rewrite Hcalls, Hsleep, <- app_assoc, length_app. cbn [length].
      repeat split; try lia; try discriminate.
Qed.

Lemma generate_button_call_budget_witness :
  exists elements st' reqs,
    generate_button example_runtime
      (scripted [Fails (RemoteError (lit "quota")); Text (lit " Sunshine! ")])
      (lit "Auto") positive 200 (lit "ELI10 (Fun & Emojis)") (lit "I love sunny days")
      initial_state = (Returned elements, st')
    /\ remote_calls st' = remote_calls initial_state ++ reqs
    /\ (length reqs <= 2)%nat
    /\ sleeps st' = sleeps initial_state
    /\ (strip (lit "I love sunny days") = [] ->
        st' = initial_state /\ elements = [Warning (lit "Please enter a prompt.")]).
Proof.
  apply (generate_button_call_budget example_runtime
           (scripted [Fails (RemoteError (lit "quota")); Text (lit " Sunshine! ")])
           (lit "Auto") positive 200 (lit "ELI10 (Fun & Emojis)")
           (lit "I love sunny days") initial_state).
  lia.
Defined.

(** With the manual sentiment the classifier is not consulted: the one
    remote call is the generation request, made with the selected sentiment
    and the cleaned style, and the cache is left alone. *)
Theorem manual_sentiment_skips_classifier (rt : Runtime) (model : Remote)
    (selected_sentiment : str) (word_count : Z) (style_mode original_prompt : str)
    (st : state) :
  strip original_prompt <> [] ->
  exists elements st',
    generate_button rt model (lit "Manual") selected_sentiment word_count
      style_mode original_prompt st = (Returned elements, st')
    /\ remote_calls st' =
       remote_calls st
         ++ [generation_request rt selected_sentiment original_prompt word_count
               (clean_style rt style_mode)]
    /\ cache st' = cache st
    /\ In (Info (lit "Using manual sentiment: **" ++ selected_sentiment ++ lit "**"))
         elements.
Proof.
  intros Hp. unfold generate_button.
  destruct (strip original_prompt) as [|c r]; [congruence|].
  rewrite str_eqb_refl. unfold bind, ret. cbn [fst snd].
  destruct (generate_returns rt model selected_sentiment original_prompt word_count
              (clean_style rt style_mode) st) as (v & shown & ->).
  eexists _, _. split; [reflexivity|].
  cbn [after_call remote_calls cache]. repeat split.
  left. reflexivity.
Qed.

Lemma manual_sentiment_skips_classifier_witness :
  exists elements st',
    generate_button example_runtime (always (Text (lit "A stormy passage.")))
      (lit "Manual") negative 100 (lit "Normal (Formal)") (lit "Rain again")
      initial_state = (Returned elements, st')
    /\ remote_calls st' =
       [] ++ [generation_request example_runtime negative (lit "Rain again") 100
                (clean_style example_runtime (lit "Normal (Formal)"))]
    /\ cache st' = ∅
    /\ In (Info (lit "Using manual sentiment: **" ++ negative ++ lit "**")) elements.
Proof.
  apply (manual_sentiment_skips_classifier example_runtime
           (always (Text (lit "A stormy passage."))) negative 100
           (lit "Normal (Formal)") (lit "Rain again") initial_state).
  vm_compute. discriminate.
Defined.

(** With the detected sentiment the two functions compose: the generation
    request is made after the classification (if any) with exactly the
    sentiment [get_sentiment] returned, and that sentiment is the one
    shown. *)
Theorem detected_sentiment_feeds_generator (rt : Runtime) (model : Remote)
    (manual_sentiment selected_sentiment : str) (word_count : Z)
    (style_mode original_prompt : str) (st : state) :
  manual_sentiment <> lit "Manual" ->
  strip original_prompt <> [] ->
  exists sentiment st1 elements st',
    get_sentiment rt model original_prompt st = (Returned sentiment, st1)
    /\ generate_button rt model manual_sentiment selected_sentiment word_count
         style_mode original_prompt st = (Returned elements, st')
    /\ remote_calls st' =
       remote_calls st1
         ++ [generation_request rt sentiment original_prompt word_count
               (clean_style rt style_mode)]
    /\ In (Success (lit "Detected Sentiment: **" ++ sentiment ++ lit "**")) elements
    /\ In (Markdown (lit "**Sentiment:** " ++ sentiment)) elements.
Proof.
  intros Hm Hp. unfold generate_button.
  destruct (strip original_prompt) as [|c r]; [congruence|].
  apply str_eqb_neq in Hm. rewrite Hm.
  destruct (get_sentiment_returns rt model original_prompt st)
    as (s & st1 & reqs & Hs & _).
  exists s, st1. unfold bind, ret. rewrite Hs. cbn [fst snd].
  destruct (generate_returns rt model s original_prompt word_count
              (clean_style rt style_mode) st1) as (v & shown & ->).
  eexists _, _. split; [reflexivity|]. split; [reflexivity|].
  cbn [after_call remote_calls]. repeat split.
  - left. reflexivity.
  - right. right. right. left. reflexivity.
Qed.

Lemma detected_sentiment_feeds_generator_witness :
  exists sentiment st1 elements st',
    get_sentiment example_runtime
      (scripted [Text (structured_reply positive); Text (lit "A sunny passage.")])
      (lit "I love exploring new cities!") initial_state = (Returned sentiment, st1)
    /\ generate_button example_runtime
         (scripted [Text (structured_reply positive); Text (lit "A sunny passage.")])
         (lit "Auto-detect") [] 200 (lit "ELI10 (Fun & Emojis)")
         (lit "I love exploring new cities!") initial_state = (Returned elements, st')
    /\ remote_calls st' =
       remote_calls st1
         ++ [generation_request example_runtime sentiment
               (lit "I love exploring new cities!") 200
               (clean_style example_runtime (lit "ELI10 (Fun & Emojis)"))]
    /\ In (Success (lit "Detected Sentiment: **" ++ sentiment ++ lit "**")) elements
    /\ In (Markdown (lit "**Sentiment:** " ++ sentiment)) elements.
Proof.
  apply (detected_sentiment_feeds_generator example_runtime
           (scripted [Text (structured_reply positive); Text (lit "A sunny passage.")])
           (lit "Auto-detect") [] 200 (lit "ELI10 (Fun & Emojis)")
           (lit "I love exploring new cities!") initial_state).
  - vm_compute. discriminate.
  - vm_compute. discriminate.
Defined.

(** A prompt of one or two characters passes the validation of the button
    but is never sent to the classifier: along a run, the only remote call
    is the generation request, made with "neutral". *)
Theorem short_prompt_is_generated_as_neutral (rt : Runtime) (model : Remote)
    (manual_sentiment selected_sentiment : str) (word_count : Z)
    (style_mode original_prompt : str) (st : state) :
  reachable rt model st ->
  manual_sentiment <> lit "Manual" ->
  strip original_prompt <> [] ->
  (length (strip original_prompt) < 3)%nat ->
  remote_calls
    (snd (generate_button rt model manual_sentiment selected_sentiment word_count
            style_mode original_prompt st)) =
  remote_calls st
    ++ [generation_request rt neutral original_prompt word_count
          (clean_style rt style_mode)].
Proof.
  intros Hreach Hm Hp Hlen. unfold generate_button.
  destruct (strip original_prompt) as [|c r] eqn:Hs; [congruence|].
  apply str_eqb_neq in Hm. rewrite Hm.
  assert (Hlen' : (length (strip original_prompt) < 3)%nat) by (rewrite Hs; exact Hlen).
  destruct (get_sentiment_short_reachable rt model original_prompt st Hreach Hlen')
    as (st1 & Hc & Hcalls).
  unfold bind, ret. rewrite Hc. cbn [fst snd].
  destruct (generate_returns rt model neutral original_prompt word_count
              (clean_style rt style_mode) st1) as (v & shown & ->).
  cbn [snd after_call remote_calls]. rewrite Hcalls. reflexivity.
Qed.

Lemma short_prompt_is_generated_as_neutral_witness :
  remote_calls
    (snd (generate_button example_runtime (always (Text (lit "Fine.")))
            (lit "Auto-detect") [] 50 (lit "Normal (Formal)") (lit "ok") initial_state)) =
  [] ++ [generation_request example_runtime neutral (lit "ok") 50
           (clean_style example_runtime (lit "Normal (Formal)"))].
Proof.
  apply (short_prompt_is_generated_as_neutral example_runtime
           (always (Text (lit "Fine."))) (lit "Auto-detect") [] 50
           (lit "Normal (Formal)") (lit "ok") initial_state).
  - apply reachable_initial.
  - vm_compute. discriminate.
  - vm_compute. discriminate.
  - vm_compute. lia.
Defined.

(** The style the button passes on: it is cleaned to "ELI10" or "Normal"
    first, so the prompt takes the ELI10 branch exactly when the upper-cased
    style mode contains "ELI10", and the Normal branch otherwise; the two
    options of the style box select the two branches. *)
Theorem button_style_selects_branch (rt : Runtime) (sentiment original_prompt : str)
    (word_count : Z) (style_mode : str) :
  generation_prompt rt sentiment original_prompt word_count (clean_style rt style_mode) =
  (if contains (lit "ELI10") (upper rt style_mode)
   then eli10_branch sentiment word_count
   else normal_branch sentiment word_count)
  ++ lit "
Original Prompt: " ++ original_prompt
  /\ contains (lit "ELI10") (upper rt (lit "ELI10 (Fun & Emojis)")) = true
  /\ contains (lit "ELI10") (upper rt (lit "Normal (Formal)")) = false.
Proof.
  split; [|split; vm_compute; reflexivity].
  unfold clean_style, generation_prompt.
  destruct (contains (lit "ELI10") (upper rt style_mode)).
  - replace (normalize_style rt (lit "ELI10")) with (lit "ELI10")
      by (vm_compute; reflexivity).
    rewrite str_eqb_refl. reflexivity.
  - replace (normalize_style rt (lit "Normal")) with (lit "NORMAL")
      by (vm_compute; reflexivity).
    replace (str_eqb (lit "NORMAL") (lit "ELI10")) with false
      by (vm_compute; reflexivity).
    reflexivity.
Qed.

(** ** The word count *)

Lemma split_from_word (s word : str) : word <> [] -> split_from s word <> [].
Proof.
  revert word. induction s as [|c s IH]; intros word Hw; simpl.
  - destruct word; [congruence|discriminate].
  - destruct (is_space c).
    + destruct word; [congruence|discriminate].
    + apply IH. discriminate.
Qed.

(** A text with a code point that is not whitespace has a word. *)
Lemma split_nonblank (s : str) : lstrip s <> [] -> split s <> [].
Proof.
  unfold split. induction s as [|c s IH]; simpl; [congruence|].
  destruct (is_space c); [exact IH|].
  intros _. apply split_from_word. discriminate.
Qed.

Lemma strip_nonblank (s : str) : strip s <> [] -> lstrip s <> [].
Proof. unfold strip. intros H E. rewrite E in H. apply H. reflexivity. Qed.

(** What the generator returns is the trimmed reply of its call, or the
    fallback message; it is never blank. *)
Lemma generate_returns_origin (rt : Runtime) (model : Remote)
    (sentiment original_prompt : str) (word_count : Z) (style_mode : str)
    (st : state) :
  exists v st',
    generate_sentiment_aligned_text rt model sentiment original_prompt word_count
      style_mode st = (Returned v, st')
    /\ strip v <> []
    /\ (v = fallback_text
        \/ exists t,
             model (length (remote_calls st))
               (generation_request rt sentiment original_prompt word_count style_mode)
             = Text t
             /\ v = strip t).
Proof.
  unfold generate_sentiment_aligned_text.
  destruct (model (length (remote_calls st))
              (generation_request rt sentiment original_prompt word_count style_mode))
    as [e|t] eqn:Hr.
  - rewrite (retry_returned _ _ _ _ _ _ (generate_body_fails rt model _ _ _ _ st e Hr)).
    eexists _, _. split; [reflexivity|].
    split; [vm_compute; discriminate|left; reflexivity].
  - destruct (strip t) as [|c r] eqn:Ht.
    + rewrite (retry_returned _ _ _ _ _ _
                 (generate_body_empty rt model _ _ _ _ st t Hr Ht)).
      eexists _, _. split; [reflexivity|].
      split; [vm_compute; discriminate|left; reflexivity].
    + assert (Hne : strip t <> []) by congruence.
      rewrite (retry_returned _ _ _ _ _ _
                 (generate_body_text rt model _ _ _ _ st t Hr Hne)).
      eexists _, _. split; [reflexivity|].
      split; [rewrite strip_idem; exact Hne|].
      right. exists t. split; reflexivity.
Qed.

(** The caption of a generation never reports zero words.  With a prompt
    that is not blank and a word count of the slider, the sentiment is the
    selected one or the one [get_sentiment] returns; [generated_text] is
    what [generate_sentiment_aligned_text] returns for it, that is the
    trimmed reply of the generation call or the fallback message, and never
    blank; the page shows, in this order, the banner of the sentiment, the
    original prompt, the sentiment, the style, [generated_text] and the
    caption "Generated ~N words", where N is the number of words of
    [generated_text], written in decimal and at least 1. *)
Theorem caption_counts_at_least_one_word (rt : Runtime) (model : Remote)
    (manual_sentiment selected_sentiment : str) (word_count : Z)
    (style_mode original_prompt : str) (st : state) :
  strip original_prompt <> [] ->
  (50 <= word_count <= 500)%Z ->
  exists sentiment st1 generated_text st' banner,
    (if str_eqb manual_sentiment (lit "Manual")
     then sentiment = selected_sentiment /\ st1 = st
     else get_sentiment rt model original_prompt st = (Returned sentiment, st1))
    /\ generate_sentiment_aligned_text rt model sentiment original_prompt word_count
         (clean_style rt style_mode) st1 = (Returned generated_text, st')
    /\ (generated_text = lit "Generation failed. Please try again."
        \/ exists t,
             model (length (remote_calls st1))
               (generation_request rt sentiment original_prompt word_count
                  (clean_style rt style_mode)) = Text t
             /\ generated_text = strip t)
    /\ strip generated_text <> []
    /\ generate_button rt model manual_sentiment selected_sentiment word_count
         style_mode original_prompt st =
       (Returned
          [ banner;
            Markdown (lit "### 📝 Original Prompt");
            Write original_prompt;
            Markdown (lit "**Sentiment:** " ++ sentiment);
            Markdown (lit "**Style:** " ++ style_mode);
            Markdown (lit "### 🎨 Generated Text");
            Write generated_text;
            Caption (lit "Generated ~"
                     ++ str_of_int (Z.of_nat (length (split generated_text)))
                     ++ lit " words") ],
        st')
    /\ int_of_str (str_of_int (Z.of_nat (length (split generated_text))))
       = Some (Z.of_nat (length (split generated_text)))
    /\ (1 <= length (split generated_text))%nat.
Proof.
  intros Hp _. unfold generate_button.
  destruct (strip original_prompt) as [|c r]; [congruence|].
  unfold bind, ret.
  assert (Hwords : forall v, strip v <> [] -> (1 <= length (split v))%nat).
  { intros v Hv. apply strip_nonblank, split_nonblank in Hv.
    destruct (split v); [congruence|simpl; lia]. }
  assert (Hfb : fallback_text = lit "Generation failed. Please try again.")
    by reflexivity.
  destruct (str_eqb manual_sentiment (lit "Manual")).
  - cbn [fst snd].
    destruct (generate_returns_origin rt model selected_sentiment original_prompt
                word_count (clean_style rt style_mode) st)
      as (v & st' & Hg & Hv & Ho).
    exists selected_sentiment, st, v, st'. eexists.
    split; [split; reflexivity|]. split; [exact Hg|].
    split; [rewrite <- Hfb; exact Ho|]. split; [exact Hv|].
    rewrite Hg. cbn [fst snd]. split; [reflexivity|].
    split; [apply int_of_str_of_int|apply Hwords, Hv].
  - destruct (get_sentiment_returns rt model original_prompt st)
      as (s & st1 & reqs & Hs & _).
    rewrite Hs. cbn [fst snd].
    destruct (generate_returns_origin rt model s original_prompt
                word_count (clean_style rt style_mode) st1)
      as (v & st' & Hg & Hv & Ho).
    exists s, st1, v, st'. eexists.
    split; [reflexivity|]. split; [exact Hg|].
    split; [rewrite <- Hfb; exact Ho|]. split; [exact Hv|].
    rewrite Hg. cbn [fst snd]. split; [reflexivity|].
    split; [apply int_of_str_of_int|apply Hwords, Hv].
Qed.

Lemma caption_counts_at_least_one_word_witness :
  exists generated_text st',
    generate_button example_runtime
      (always (Fails (RemoteError (lit "503 service unavailable"))))
      (lit "Manual") positive 200 (lit "ELI10 (Fun & Emojis)") (lit "Hello")
      initial_state =
    (Returned
       [ Info (lit "Using manual sentiment: **positive**");
         Markdown (lit "### 📝 Original Prompt");
         Write (lit "Hello");
         Markdown (lit "**Sentiment:** positive");
         Markdown (lit "**Style:** ELI10 (Fun & Emojis)");
         Markdown (lit "### 🎨 Generated Text");
         Write generated_text;
         Caption (lit "Generated ~5 words") ],
     st')
    /\ generated_text = lit "Generation failed. Please try again."
    /\ (1 <= length (split generated_text))%nat.
Proof.
  assert (Hp : strip (lit "Hello") <> []) by (vm_compute; discriminate).
  assert (Hw : (50 <= 200 <= 500)%Z) by lia.
  destruct (caption_counts_at_least_one_word example_runtime
              (always (Fails (RemoteError (lit "503 service unavailable"))))
              (lit "Manual") positive 200 (lit "ELI10 (Fun & Emojis)") (lit "Hello")
              initial_state Hp Hw)
    as (sentiment & st1 & generated_text & st' & banner
        & Hs & Hg & Ho & Hne & Hb & Hn & Hc).
  assert (Hs' : sentiment = positive /\ st1 = initial_state) by exact Hs.
  destruct Hs' as [Hs1 Hs2]. rewrite Hs1, Hs2 in Ho. rewrite Hs1 in Hb.
  assert (Ht : generated_text = lit "Generation failed. Please try again.").
  { destruct Ho as [Ho|(t & Ho & _)]; [exact Ho|].
    vm_compute in Ho. discriminate. }
  assert (Hbanner : Some (Info (lit "Using manual sentiment: **positive**"))
                    = Some banner).
  { apply (f_equal (fun r => match fst r with
                             | Returned (b :: _) => Some b
                             | _ => None
                             end)) in Hb.
    vm_compute in Hb. rewrite <- Hb. vm_compute. reflexivity. }
  injection Hbanner as Hbanner.
  exists generated_text, st'.
  split; [|split; [exact Ht|exact Hc]].
  rewrite Hb, <- Hbanner, Ht. vm_compute. reflexivity.
Defined.

(** ** How the generator reads the style mode *)

Lemma ascii_upper_ascii (c : N) : ascii_upper c < 128 -> c < 128.
Proof. unfold ascii_upper. destruct (_ && _) eqn:E; [|lia]. intros _.
  apply andb_prop in E as [_ E]. apply N.leb_le in E. lia.
Qed.

Lemma upper_ascii (rt : Runtime) (s : str) :
  Forall (fun c => c < 128) s -> upper rt s = map ascii_upper s.
Proof.
  unfold upper. induction 1 as [|c s Hc _ IH]; [reflexivity|].
  cbn [flat_map map]. apply N.ltb_lt in Hc. rewrite Hc, IH. reflexivity.
Qed.

Lemma upper_casing_ascii (v target : str) :
  Forall (fun c => c < 128) target -> map ascii_upper v = target ->
  Forall (fun c => c < 128) v.
Proof.
  intros Ht <-. induction v as [|c v IH]; [constructor|].
  inversion Ht; subst. constructor; [by apply ascii_upper_ascii|by apply IH].
Qed.

(** An ASCII blank: one of the whitespace characters below 128. *)
Lemma ascii_blank_cases (c : N) :
  is_space c = true -> c < 128 -> (9 <= c <= 13 \/ 28 <= c <= 32).
Proof.
  unfold is_space. intros H Hc.
  repeat (apply orb_prop in H as [H|H]);
    try (apply andb_prop in H as [H1 H2]; apply N.leb_le in H1, H2; lia);
    apply N.eqb_eq in H; lia.
Qed.

Lemma upper_blanks (s : str) :
  Forall (fun c => is_space c = true /\ c < 128) s -> map ascii_upper s = s.
Proof.
  induction 1 as [|c s [Hs Hc] _ IH]; [reflexivity|].
  cbn [map]. rewrite IH. f_equal.
  destruct (ascii_blank_cases c Hs Hc); unfold ascii_upper;
    destruct (_ && _) eqn:E; try reflexivity;
    apply andb_prop in E as [E _]; apply N.leb_le in E; lia.
Qed.

Lemma lstrip_blanks (pre s : str) :
  Forall (fun c => is_space c = true) pre -> lstrip (pre ++ s) = lstrip s.
Proof. induction 1 as [|c pre Hc _ IH]; [reflexivity|]. cbn [app lstrip]. by rewrite Hc. Qed.

Lemma replace_nonempty (old new s : str) :
  old <> [] -> replace old new s = replace_from old new O s.
Proof. destruct old; [congruence|reflexivity]. Qed.

(** Dropping what is left of a matched occurrence. *)
Lemma replace_from_skip (old new a b : str) :
  replace_from old new (length a) (a ++ b) = replace_from old new O b.
Proof.
  induction a as [|c a IH]; [reflexivity|].
  cbn [length app replace_from]. exact IH.
Qed.

(** An occurrence at the front is replaced. *)
Lemma replace_from_match (old new b : str) :
  old <> [] ->
  replace_from old new O (old ++ b) = new ++ replace_from old new O b.
Proof.
  intros Hne. destruct old as [|c old']; [congruence|].
  cbn [app replace_from].
  change (c :: old' ++ b) with ((c :: old') ++ b).
  rewrite starts_with_app. cbn [length Nat.pred].
  rewrite replace_from_skip. reflexivity.
Qed.

(** The pattern of [normalize_style] needs a blank followed by a bracket. *)
Lemma starts_with_fun_emojis (s : str) :
  starts_with (lit " (FUN & EMOJIS)") s = true -> exists r, s = 32 :: 40 :: r.
Proof.
  replace (lit " (FUN & EMOJIS)") with (32 :: 40 :: lit "FUN & EMOJIS)")
    by (vm_compute; reflexivity).
  destruct s as [|a [|b r]]; cbn [starts_with]; intros H.
  - discriminate.
  - apply andb_prop in H as [_ H]. discriminate.
  - apply andb_prop in H as [Ha H]. apply andb_prop in H as [Hb _].
    apply N.eqb_eq in Ha, Hb. subst. by exists r.
Qed.

(** Text without a bracket is left alone, up to a code point that is
    neither a blank nor a bracket. *)
Lemma replace_from_no_bracket (a : str) (x : N) (b : str) :
  Forall (fun c => c <> 40) a -> x <> 40 -> x <> 32 ->
  replace_from (lit " (FUN & EMOJIS)") [] O (a ++ x :: b) =
  a ++ x :: replace_from (lit " (FUN & EMOJIS)") [] O b.
Proof.
  intros Ha Hx40 Hx32. induction Ha as [|c a Hc Ha IH].
  - cbn [app replace_from].
    destruct (starts_with (lit " (FUN & EMOJIS)") (x :: b)) eqn:E; [|reflexivity].
    apply starts_with_fun_emojis in E as [r E]. congruence.
  - cbn [app replace_from].
    destruct (starts_with (lit " (FUN & EMOJIS)") (c :: a ++ x :: b)) eqn:E.
    + apply starts_with_fun_emojis in E as [r E]. exfalso.
      injection E as _ E. destruct a as [|c' a'].
      * cbn [app] in E. congruence.
      * cbn [app] in E. inversion Ha; subst. congruence.
    + rewrite IH. reflexivity.
Qed.

Lemma replace_from_no_bracket_all (s : str) :
  Forall (fun c => c <> 40) s ->
  replace_from (lit " (FUN & EMOJIS)") [] O s = s.
Proof.
  induction 1 as [|c s Hc Hs IH]; [reflexivity|].
  cbn [replace_from].
  destruct (starts_with (lit " (FUN & EMOJIS)") (c :: s)) eqn:E.
  - apply starts_with_fun_emojis in E as [r E]. exfalso.
    injection E as _ E. subst. inversion Hs; subst. congruence.
  - rewrite IH. reflexivity.
Qed.

(** The style mode is read regardless of ASCII letter case and of ASCII
    blanks around it, with or without the suffix " (Fun & Emojis)" in any
    letter case: every such spelling of "ELI10" normalizes to "ELI10" and
    selects the ELI10 branch of the prompt. *)
Theorem style_mode_ignores_case_and_padding (rt : Runtime) (pre v suffix post : str)
    (sentiment original_prompt : str) (word_count : Z) :
  Forall (fun c => is_space c = true /\ c < 128) pre ->
  Forall (fun c => is_space c = true /\ c < 128) post ->
  map ascii_upper v = lit "ELI10" ->
  suffix = [] \/ map ascii_upper suffix = lit " (FUN & EMOJIS)" ->
  normalize_style rt (pre ++ v ++ suffix ++ post) = lit "ELI10"
  /\ generation_prompt rt sentiment original_prompt word_count
       (pre ++ v ++ suffix ++ post) =
     eli10_branch sentiment word_count ++ lit "
Original Prompt: " ++ original_prompt.
Proof.
  intros Hpre Hpost Hv Hsuf.
  assert (Hnorm : normalize_style rt (pre ++ v ++ suffix ++ post) = lit "ELI10").
  { unfold normalize_style.
    assert (Hblank : forall s, Forall (fun c => is_space c = true /\ c < 128) s ->
              Forall (fun c => c < 128) s /\ Forall (fun c => is_space c = true) s
              /\ Forall (fun c => c <> 40) s).
    { intros s Hs. repeat split; eapply Forall_impl; try exact Hs;
        intros c [H1 H2]; try assumption.
      destruct (ascii_blank_cases c H1 H2); lia. }
    destruct (Hblank pre Hpre) as (Hpre1 & Hpre2 & Hpre3).
    destruct (Hblank post Hpost) as (Hpost1 & Hpost2 & Hpost3).
    assert (Hv1 : Forall (fun c => c < 128) v).
    { eapply upper_casing_ascii; [|exact Hv]. vm_compute. repeat constructor. }
    assert (Hs1 : Forall (fun c => c < 128) suffix).
    { destruct Hsuf as [-> | Hsuf]; [constructor|].
      eapply upper_casing_ascii; [|exact Hsuf]. vm_compute. repeat constructor. }
    rewrite upper_ascii by (repeat (apply Forall_app; split); assumption).
    rewrite !map_app, (upper_blanks pre Hpre), (upper_blanks post Hpost), Hv.
    rewrite replace_nonempty by (vm_compute; discriminate).
    replace (lit "ELI10") with (lit "ELI1" ++ [48]) at 1 by (vm_compute; reflexivity).
    rewrite <- (app_assoc (lit "ELI1")), (app_assoc pre). cbn [app].
    rewrite replace_from_no_bracket;
      [|apply Forall_app; split; [exact Hpre3|vm_compute; repeat constructor; lia]
       |lia|lia].
    assert (Hrest : replace_from (lit " (FUN & EMOJIS)") []
                      O (map ascii_upper suffix ++ post) = post).
    { destruct Hsuf as [-> | ->].
      - cbn [map app]. apply replace_from_no_bracket_all. exact Hpost3.
      - rewrite replace_from_match by (vm_compute; discriminate).
        cbn [app]. apply replace_from_no_bracket_all. exact Hpost3. }
    rewrite Hrest.
    unfold strip. rewrite <- app_assoc, lstrip_blanks by exact Hpre2.
    replace (lit "ELI1" ++ 48 :: post) with (69 :: lit "LI10" ++ post)
      by (vm_compute; reflexivity).
    rewrite lstrip_fixed by (vm_compute; reflexivity).
    unfold rstrip.
    change (69 :: lit "LI10" ++ post) with ((69 :: lit "LI10") ++ post).
    rewrite rev_app_distr, lstrip_blanks by (apply Forall_rev; exact Hpost2).
    vm_compute. reflexivity. }
  split; [exact Hnorm|].
  unfold generation_prompt. rewrite Hnorm, str_eqb_refl. reflexivity.
Qed.

Lemma style_mode_ignores_case_and_padding_witness :
  normalize_style example_runtime (lit "  eLi10 (fun & EMOJIS)
") = lit "ELI10".
Proof.
  apply (style_mode_ignores_case_and_padding example_runtime
           (lit "  ") (lit "eLi10") (lit " (fun & EMOJIS)") (lit "
") neutral [] 0).
  - vm_compute. repeat constructor.
  - vm_compute. repeat constructor.
  - vm_compute. reflexivity.
  - right. vm_compute. reflexivity.
Defined.

(** ** The export *)

Lemma starts_with_elim (p s : str) : starts_with p s = true -> exists b, s = p ++ b.
Proof.
  revert s. induction p as [|x p IH]; intros s H; [by exists s|].
  destruct s as [|y s]; [discriminate|]. cbn [starts_with] in H.
  apply andb_prop in H as [Hxy H]. apply N.eqb_eq in Hxy. subst.
  destruct (IH s H) as [b ->]. by exists b.
Qed.

Lemma contains_elim (needle s : str) :
  contains needle s = true -> exists a b, s = a ++ needle ++ b.
Proof.
  induction s as [|c s IH]; rewrite contains_unfold; intros H.
  - apply orb_prop in H as [H|H]; [|discriminate].
    apply starts_with_elim in H as [b ->]. by exists [], b.
  - apply orb_prop in H as [H|H].
    + apply starts_with_elim in H as [b ->]. by exists [], b.
    + destruct (IH H) as (a & b & ->). by exists (c :: a), b.
Qed.

(** What a text contains, it still contains inside a longer text. *)
Lemma contains_inside (needle x s y : str) :
  contains needle s = true -> contains needle (x ++ s ++ y) = true.
Proof.
  intros H. apply contains_elim in H as (a & b & ->).
  replace (x ++ (a ++ needle ++ b) ++ y) with ((x ++ a) ++ needle ++ (b ++ y))
    by (rewrite <- !app_assoc; reflexivity).
  apply contains_infix.
Qed.

Lemma lower_from_ascii_prefix (rt : Runtime) (m b before : str) :
  Forall (fun c => c < 128) m ->
  lower_from rt before (m ++ b) = map ascii_lower m ++ lower_from rt (before ++ m) b.
Proof.
  intros H. revert before. induction H as [|c m Hc _ IH]; intros before.
  - cbn [app map]. by rewrite app_nil_r.
  - cbn [app map lower_from]. apply N.ltb_lt in Hc. rewrite Hc, IH.
    rewrite <- (app_assoc before [c] m). reflexivity.
Qed.

(** Lower-casing maps an ASCII stretch of a text by itself, whatever stands
    around it. *)
Lemma lower_ascii_infix (rt : Runtime) (a m b : str) :
  Forall (fun c => c < 128) m ->
  exists x y, lower rt (a ++ m ++ b) = x ++ map ascii_lower m ++ y.
Proof.
  intros Hm. unfold lower. generalize (@nil N) as before.
  induction a as [|c a IH]; intros before.
  - exists [], (lower_from rt (before ++ m) b). cbn [app].
    by apply lower_from_ascii_prefix.
  - cbn [app lower_from]. destruct (IH (before ++ [c])) as (x & y & ->).
    eexists (_ ++ x), y. rewrite <- app_assoc. reflexivity.
Qed.

(** A document reportlab built is always offered as a PDF: its file name is
    "sentiment_text_", the sentiment, "_", the lower-cased style with "_"
    for each space, "_", the time stamp and last ".pdf", so the button
    carries the PDF label and no warning follows it, whatever the
    sentiment, the style and the time stamp. *)
Theorem built_document_is_labelled_pdf (rt : Runtime) (document : list N)
    (sentiment style_mode original_prompt generated_text : str)
    (gen_word_count : nat) (generated_on stamp : str) :
  exists filename stem,
    create_export rt (Built document) sentiment style_mode original_prompt
      generated_text gen_word_count generated_on stamp =
    Some (document, lit "application/pdf", filename)
    /\ filename = stem ++ lit ".pdf"
    /\ stem = lit "sentiment_text_" ++ sentiment ++ lit "_"
              ++ replace (lit " ") (lit "_") (lower rt style_mode)
              ++ lit "_" ++ stamp
    /\ download_elements rt document (lit "application/pdf") filename =
       [DownloadButton (lit "💾 Download as PDF 📄") document filename
          (lit "application/pdf")].
Proof.
  exists (export_name rt sentiment style_mode stamp (lit ".pdf")),
    (lit "sentiment_text_" ++ sentiment ++ lit "_"
     ++ replace (lit " ") (lit "_") (lower rt style_mode) ++ lit "_" ++ stamp).
  split; [reflexivity|].
  split; [unfold export_name; rewrite <- !app_assoc; reflexivity|].
  split; [reflexivity|].
  fold pdf_label. unfold download_elements.
  assert (H : contains (lit "pdf")
                (lower rt (export_name rt sentiment style_mode stamp (lit ".pdf"))) = true).
  { unfold export_name.
    replace (lit ".pdf") with (lit "." ++ lit "pdf" ++ []) by (vm_compute; reflexivity).
    rewrite !app_assoc. rewrite <- (app_assoc _ (lit "pdf") []).
    destruct (lower_ascii_infix rt
                ((((((lit "sentiment_text_" ++ sentiment) ++ lit "_")
                     ++ replace (lit " ") (lit "_") (lower rt style_mode))
                    ++ lit "_") ++ stamp) ++ lit ".") (lit "pdf") [])
      as (x & y & ->); [vm_compute; repeat constructor|].
    replace (map ascii_lower (lit "pdf")) with (lit "pdf") by (vm_compute; reflexivity).
    apply contains_infix. }
  rewrite H. reflexivity.
Qed.

(** The label is chosen by looking for "pdf" anywhere in the lower-cased
    file name, not at its extension: when reportlab is missing and the
    sentiment contains "pdf" in any letter case, the text file gets the PDF
    label and the warning about reportlab is not shown. *)
Theorem text_file_with_pdf_in_its_name_is_labelled_pdf (rt : Runtime)
    (sentiment style_mode stamp : str) (data : list N) :
  Forall (fun c => c < 128) sentiment ->
  contains (lit "pdf") (map ascii_lower sentiment) = true ->
  download_elements rt data (lit "text/plain")
    (export_name rt sentiment style_mode stamp (lit ".txt")) =
  [DownloadButton pdf_label data
     (export_name rt sentiment style_mode stamp (lit ".txt")) (lit "text/plain")].
Proof.
  intros Hascii Hpdf. unfold download_elements.
  assert (H : contains (lit "pdf")
                (lower rt (export_name rt sentiment style_mode stamp (lit ".txt"))) = true).
  { unfold export_name.
    destruct (lower_ascii_infix rt (lit "sentiment_text_") sentiment
                (lit "_" ++ replace (lit " ") (lit "_") (lower rt style_mode)
                 ++ lit "_" ++ stamp ++ lit ".txt") Hascii)
      as (x & y & ->).
    by apply contains_inside. }
  rewrite H. reflexivity.
Qed.

Lemma text_file_with_pdf_in_its_name_is_labelled_pdf_witness :
  download_elements example_runtime [] (lit "text/plain")
    (export_name example_runtime (lit "PDF") (lit "Normal (Formal)")
       (lit "20251103_101500") (lit ".txt")) =
  [DownloadButton pdf_label []
     (export_name example_runtime (lit "PDF") (lit "Normal (Formal)")
        (lit "20251103_101500") (lit ".txt")) (lit "text/plain")].
Proof.
  apply (text_file_with_pdf_in_its_name_is_labelled_pdf example_runtime
           (lit "PDF") (lit "Normal (Formal)") (lit "20251103_101500") []).
  - vm_compute. repeat constructor.
  - vm_compute. reflexivity.
Defined.

Lemma lower_ascii (rt : Runtime) (s : str) :
  Forall (fun c => c < 128) s -> lower rt s = map ascii_lower s.
Proof. apply lower_from_ascii. Qed.

(** "pdf" cannot occur without a "d". *)
Lemma contains_pdf_has_d (s : str) : contains (lit "pdf") s = true -> In 100 s.
Proof.
  intros H. apply contains_elim in H as (a & b & ->).
  apply in_or_app. right.
  replace (lit "pdf") with [112; 100; 102] by (vm_compute; reflexivity).
  cbn [app In]. auto.
Qed.

(** The code points of a file name made of the values the sidebar offers:
    ASCII, and neither "d" nor "D". *)
Lemma plain_code_point_lower (c : N) :
  (c <? 128) && negb (c =? 100) && negb (c =? 68) = true ->
  c < 128 /\ ascii_lower c <> 100.
Proof.
  intros H. apply andb_prop in H as [H H68]. apply andb_prop in H as [H128 H100].
  apply N.ltb_lt in H128. apply negb_true_iff, N.eqb_neq in H68, H100.
  split; [exact H128|]. unfold ascii_lower. destruct (_ && _); lia.
Qed.

Lemma stamp_char_plain (c : N) :
  stamp_char c = true -> (c <? 128) && negb (c =? 100) && negb (c =? 68) = true.
Proof.
  unfold stamp_char, is_digit. intros H.
  assert (Hc : 48 <= c <= 57 \/ c = 95).
  { apply orb_prop in H as [H|H].
    - apply andb_prop in H as [H1 H2]. apply N.leb_le in H1, H2. lia.
    - apply N.eqb_eq in H. lia. }
  rewrite !andb_true_iff, !negb_true_iff, N.ltb_lt, !N.eqb_neq. lia.
Qed.

(** With the values the sidebar offers (one of the three sentiments, one of
    the two style modes) and a time stamp of digits and underscores, the
    text file written when reportlab is missing gets the TXT label, and the
    warning about reportlab follows the button. *)
Theorem text_fallback_is_labelled_txt (rt : Runtime) (sentiment style_mode stamp : str)
    (data : list N) :
  is_label sentiment ->
  style_mode = lit "ELI10 (Fun & Emojis)" \/ style_mode = lit "Normal (Formal)" ->
  Forall (fun c => stamp_char c = true) stamp ->
  download_elements rt data (lit "text/plain")
    (export_name rt sentiment style_mode stamp (lit ".txt")) =
  [DownloadButton txt_label data
     (export_name rt sentiment style_mode stamp (lit ".txt")) (lit "text/plain");
   Warning reportlab_warning].
Proof.
  intros Hlabel Hstyle Hstamp. unfold download_elements.
  set (plain := fun c : N => (c <? 128) && negb (c =? 100) && negb (c =? 68) = true).
  assert (Hname : Forall plain (export_name rt sentiment style_mode stamp (lit ".txt"))).
  { unfold export_name.
    assert (Hs : Forall plain stamp).
    { eapply Forall_impl; [exact Hstamp|]. intros c Hc. by apply stamp_char_plain. }
    assert (Hsent : Forall plain sentiment).
    { destruct Hlabel as [-> | [-> | ->]]; vm_compute; repeat constructor. }
    assert (Hsty : Forall plain (replace (lit " ") (lit "_") (lower rt style_mode))).
    { destruct Hstyle as [-> | ->]; vm_compute; repeat constructor. }
    repeat (apply Forall_app; split); try assumption; vm_compute; repeat constructor. }
  assert (H : contains (lit "pdf")
                (lower rt (export_name rt sentiment style_mode stamp (lit ".txt"))) = false).
  { destruct (contains _ _) eqn:E; [|reflexivity]. exfalso.
    rewrite lower_ascii in E
      by (eapply Forall_impl; [exact Hname|]; intros c Hc;
          by apply plain_code_point_lower in Hc as [Hc _]).
    apply contains_pdf_has_d in E. apply in_map_iff in E as (c & Hc & Hin).
    rewrite List.Forall_forall in Hname. apply Hname in Hin.
    apply plain_code_point_lower in Hin as [_ Hin]. congruence. }
  rewrite H. reflexivity.
Qed.

Lemma text_fallback_is_labelled_txt_witness :
  download_elements example_runtime [] (lit "text/plain")
    (export_name example_runtime positive (lit "ELI10 (Fun & Emojis)")
       (lit "20251103_101500") (lit ".txt")) =
  [DownloadButton txt_label []
     (export_name example_runtime positive (lit "ELI10 (Fun & Emojis)")
        (lit "20251103_101500") (lit ".txt")) (lit "text/plain");
   Warning reportlab_warning].
Proof.
  apply (text_fallback_is_labelled_txt example_runtime positive
           (lit "ELI10 (Fun & Emojis)") (lit "20251103_101500") []).
  - left. reflexivity.
  - left. reflexivity.
  - vm_compute. repeat constructor.
Defined.

Lemma replace_blanks_no_blank (s : str) :
  Forall (fun c => c <> 32) (replace (lit " ") (lit "_") s).
Proof.
  replace (lit " ") with [32] by (vm_compute; reflexivity).
  replace (lit "_") with [95] by (vm_compute; reflexivity).
  unfold replace. induction s as [|c s IH]; [constructor|].
  cbn [replace_from starts_with length Nat.pred].
  destruct (32 =? c) eqn:E; cbn [andb app].
  - constructor; [lia|exact IH].
  - constructor; [|exact IH]. apply N.eqb_neq in E. congruence.
Qed.

(** The file name of an export has no blank when the sentiment has none:
    the blanks of the style mode are replaced by underscores, and the time
    stamp and the extension have none. *)
Theorem export_name_has_no_blank (rt : Runtime) (sentiment style_mode stamp extension : str) :
  Forall (fun c => c <> 32) sentiment ->
  Forall (fun c => stamp_char c = true) stamp ->
  extension = lit ".pdf" \/ extension = lit ".txt" ->
  Forall (fun c => c <> 32) (export_name rt sentiment style_mode stamp extension).
Proof.
  intros Hsent Hstamp Hext. unfold export_name.
  assert (Hlit : forall s, forallb (fun c => negb (c =? 32)) s = true ->
                           Forall (fun c => c <> 32) s).
  { intros s H. apply List.Forall_forall. intros c Hc.
    rewrite forallb_forall in H. apply H in Hc.
    by apply negb_true_iff, N.eqb_neq in Hc. }
  repeat (apply Forall_app; split).
  - apply Hlit. vm_compute. reflexivity.
  - exact Hsent.
  - apply Hlit. vm_compute. reflexivity.
  - apply replace_blanks_no_blank.
  - apply Hlit. vm_compute. reflexivity.
  - eapply Forall_impl; [exact Hstamp|]. intros c Hc ->.
    vm_compute in Hc. discriminate.
  - destruct Hext as [-> | ->]; apply Hlit; vm_compute; reflexivity.
Qed.

Lemma export_name_has_no_blank_witness :
  Forall (fun c => c <> 32)
    (export_name example_runtime neutral (lit "ELI10 (Fun & Emojis)")
       (lit "20251103_101500") (lit ".pdf")).
Proof.
  apply (export_name_has_no_blank example_runtime neutral (lit "ELI10 (Fun & Emojis)")
           (lit "20251103_101500") (lit ".pdf")).
  - vm_compute. repeat constructor; discriminate.
  - vm_compute. repeat constructor.
  - left. reflexivity.
Defined.

(** ** The bytes of the text file *)

Ltac divmod_lia := zify; Z.to_euclidean_division_equations; lia.

Lemma utf8_decode_encode_char (c : N) (bs rest : list N) :
  utf8_encode_char c = Some bs ->
  utf8_decode (bs ++ rest) = c :: utf8_decode rest.
Proof.
  unfold utf8_encode_char.
  destruct (N.ltb_spec c 128) as [H1|H1].
  { intros [= <-]. cbn [app utf8_decode].
    apply N.ltb_lt in H1. by rewrite H1. }
  destruct (N.ltb_spec c 2048) as [H2|H2].
  { intros [= <-]. cbn [app utf8_decode].
    assert ((192 + c / 64 <? 128) = false) as -> by (apply N.ltb_ge; divmod_lia).
    assert ((192 + c / 64 <? 224) = true) as -> by (apply N.ltb_lt; divmod_lia).
    f_equal. divmod_lia. }
  destruct ((55296 <=? c) && (c <=? 57343)); [discriminate|].
  destruct (N.ltb_spec c 65536) as [H3|H3].
  { intros [= <-]. cbn [app utf8_decode].
    assert ((224 + c / 4096 <? 128) = false) as -> by (apply N.ltb_ge; divmod_lia).
    assert ((224 + c / 4096 <? 224) = false) as -> by (apply N.ltb_ge; divmod_lia).
    assert ((224 + c / 4096 <? 240) = true) as -> by (apply N.ltb_lt; divmod_lia).
    f_equal. divmod_lia. }
  destruct (N.ltb_spec c 1114112) as [H4|H4]; [|discriminate].
  intros [= <-]. cbn [app utf8_decode].
  assert ((240 + c / 262144 <? 128) = false) as -> by (apply N.ltb_ge; divmod_lia).
  assert ((240 + c / 262144 <? 224) = false) as -> by (apply N.ltb_ge; divmod_lia).
  assert ((240 + c / 262144 <? 240) = false) as -> by (apply N.ltb_ge; divmod_lia).
  f_equal. divmod_lia.
Qed.

(** Decoding what was encoded gives the text back. *)
Lemma utf8_round_trip (s : str) (bs : list N) :
  utf8_encode s = Some bs -> utf8_decode bs = s.
Proof.
  revert bs. induction s as [|c s IH]; intros bs; cbn [utf8_encode].
  - by intros [= <-].
  - destruct (utf8_encode_char c) as [cs|] eqn:Ec; [|discriminate].
    destruct (utf8_encode s) as [rest|]; [|discriminate].
    intros [= <-]. rewrite (utf8_decode_encode_char c cs rest Ec).
    f_equal. by apply IH.
Qed.

(** Encoding fails on a lone surrogate only. *)
Lemma utf8_encode_total (s : str) :
  Forall (fun c => c < 1114112 /\ ~ (55296 <= c <= 57343)) s ->
  exists bs, utf8_encode s = Some bs.
Proof.
  induction 1 as [|c s [Hc Hs] _ [bs IH]]; [by exists []|].
  cbn [utf8_encode]. rewrite IH. unfold utf8_encode_char.
  destruct (c <? 128); [by eexists|].
  destruct (c <? 2048); [by eexists|].
  destruct ((55296 <=? c) && (c <=? 57343)) eqn:E.
  { apply andb_prop in E as [E1 E2]. apply N.leb_le in E1, E2. lia. }
  destruct (c <? 65536); [by eexists|].
  destruct (N.ltb_spec c 1114112); [by eexists|lia].
Qed.

(** The text file of the fallback holds exactly the export text: whenever
    [create_export] returns without reportlab, the data decode (as UTF-8)
    back to the text with the prompt, the sentiment, the style, the
    generated text and the word count, the MIME type is "text/plain" and
    the name ends in ".txt". *)
Theorem text_export_decodes_back (rt : Runtime)
    (sentiment style_mode original_prompt generated_text : str)
    (gen_word_count : nat) (generated_on stamp : str)
    (data : list N) (mime filename : str) :
  create_export rt NotInstalled sentiment style_mode original_prompt generated_text
    gen_word_count generated_on stamp = Some (data, mime, filename) ->
  utf8_decode data =
  export_text sentiment style_mode original_prompt generated_text gen_word_count
    generated_on
  /\ mime = lit "text/plain"
  /\ filename = export_name rt sentiment style_mode stamp (lit ".txt").
Proof.
  unfold create_export.
  destruct (utf8_encode _) as [bs|] eqn:E; [|discriminate].
  intros [= <- <- <-]. split; [|split; reflexivity].
  by apply utf8_round_trip.
Qed.

Lemma text_export_decodes_back_witness :
  exists data,
    create_export example_runtime NotInstalled positive (lit "ELI10 (Fun & Emojis)")
      (lit "I love sunny days — really!") (lit "Sunshine 😄 all day") 4
      (lit "2025-11-03 10:15:00") (lit "20251103_101500") =
    Some (data, lit "text/plain",
          export_name example_runtime positive (lit "ELI10 (Fun & Emojis)")
            (lit "20251103_101500") (lit ".txt"))
    /\ utf8_decode data =
       export_text positive (lit "ELI10 (Fun & Emojis)")
         (lit "I love sunny days — really!") (lit "Sunshine 😄 all day") 4
         (lit "2025-11-03 10:15:00").
Proof.
  destruct (create_export example_runtime NotInstalled positive
              (lit "ELI10 (Fun & Emojis)") (lit "I love sunny days — really!")
              (lit "Sunshine 😄 all day") 4 (lit "2025-11-03 10:15:00")
              (lit "20251103_101500")) as [[[data mime] filename]|] eqn:E.
  - destruct (text_export_decodes_back example_runtime positive
                (lit "ELI10 (Fun & Emojis)") (lit "I love sunny days — really!")
                (lit "Sunshine 😄 all day") 4 (lit "2025-11-03 10:15:00")
                (lit "20251103_101500") data mime filename E) as (H1 & -> & ->).
    exists data. split; [reflexivity|exact H1].
  - vm_compute in E. discriminate.
Defined.

(** ** The retry policy *)

(** The policy [wait_exponential(multiplier=1, min=4, max=10)] waits between
    4 and 10 seconds after every attempt, never less after a later attempt,
    and 4 seconds after each of the first two attempts, the only ones that
    three attempts can be followed by a wait. *)
Theorem backoff_between_4_and_10 (n m : nat) :
  (4 <= wait_exponential 1 4 10 n <= 10)%Z
  /\ ((n <= m)%nat -> (wait_exponential 1 4 10 n <= wait_exponential 1 4 10 m)%Z)
  /\ wait_exponential 1 4 10 1 = 4%Z
  /\ wait_exponential 1 4 10 2 = 4%Z.
Proof.
  unfold wait_exponential. split; [lia|]. split; [|split; reflexivity].
  intros Hnm.
  assert (2 ^ (Z.of_nat n - 1) <= 2 ^ (Z.of_nat m - 1))%Z
    by (apply Z.pow_le_mono_r; lia).
  lia.
Qed.

Section RetryAroundCall.
Variable model : Remote.
Variable req : request.
Variable wait : nat -> Z.

(** While the call keeps raising, the loop calls again after a sleep, until
    no further attempt is allowed. *)
Lemma attempt_all_fail (more : nat) :
  forall (n : nat) (st : state),
    (forall i, (i <= more)%nat ->
       exists e, model (length (remote_calls st) + i)%nat req = Fails e) ->
    exists e st',
      attempt wait more n (generate_content model req) st = (Raised (RetryError e), st')
      /\ model (length (remote_calls st) + more)%nat req = Fails e
      /\ remote_calls st' = remote_calls st ++ repeat req (S more)
      /\ sleeps st' = sleeps st ++ map wait (seq n more).
Proof.
  induction more as [|more IH]; intros n st Hfail.
  - destruct (Hfail O (Nat.le_refl _)) as [e He].
    exists e. eexists. cbn [attempt]. unfold generate_content at 1.
    rewrite Nat.add_0_r in He. rewrite He. repeat split.
    + by rewrite Nat.add_0_r.
    + cbn [sleeps seq map]. by rewrite app_nil_r.
  - destruct (Hfail O (Nat.le_0_l _)) as [e0 He0].
    rewrite Nat.add_0_r in He0.
    cbn [attempt]. unfold generate_content at 1. rewrite He0.
    unfold sleep at 1. cbn [remote_calls st_errors sleeps clock cache].
    match goal with |- context [attempt wait more (S n) _ ?s] => set (st2 := s) end.
    destruct (IH (S n) st2) as (e & st' & Hrun & He & Hcalls & Hsleeps).
    { intros i Hi. destruct (Hfail (S i)) as [e He]; [lia|]. exists e.
      unfold st2. cbn [remote_calls]. rewrite length_app. cbn [length].
      rewrite <- He. f_equal. lia. }
    exists e, st'. rewrite Hrun. repeat split.
    + rewrite <- He. unfold st2. cbn [remote_calls]. rewrite length_app.
      cbn [length]. f_equal. lia.
    + rewrite Hcalls. unfold st2. cbn [remote_calls repeat].
      rewrite <- app_assoc. reflexivity.
    + rewrite Hsleeps. unfold st2. cbn [sleeps seq map].
      rewrite <- app_assoc. reflexivity.
Qed.

(** The first call that returns ends the loop. *)
Lemma attempt_first_success (more : nat) :
  forall (n k : nat) (t : str) (st : state),
    (k <= more)%nat ->
    (forall i, (i < k)%nat ->
       exists e, model (length (remote_calls st) + i)%nat req = Fails e) ->
    model (length (remote_calls st) + k)%nat req = Text t ->
    exists st',
      attempt wait more n (generate_content model req) st = (Returned t, st')
      /\ remote_calls st' = remote_calls st ++ repeat req (S k)
      /\ sleeps st' = sleeps st ++ map wait (seq n k).
Proof.
  induction more as [|more IH]; intros n k t st Hk Hfail Hok.
  - assert (k = O) as -> by lia. rewrite Nat.add_0_r in Hok.
    eexists. cbn [attempt]. unfold generate_content at 1. rewrite Hok.
    repeat split. cbn [sleeps seq map]. by rewrite app_nil_r.
  - destruct k as [|k].
    + rewrite Nat.add_0_r in Hok.
      eexists. cbn [attempt]. unfold generate_content at 1. rewrite Hok.
      repeat split. cbn [sleeps seq map]. by rewrite app_nil_r.
    + destruct (Hfail O) as [e0 He0]; [lia|]. rewrite Nat.add_0_r in He0.
      cbn [attempt]. unfold generate_content at 1. rewrite He0.
      unfold sleep at 1. cbn [remote_calls st_errors sleeps clock cache].
      match goal with |- context [attempt wait more (S n) _ ?s] => set (st2 := s) end.
      destruct (IH (S n) k t st2) as (st' & Hrun & Hcalls & Hsleeps).
      * lia.
      * intros i Hi. destruct (Hfail (S i)) as [e He]; [lia|]. exists e.
        unfold st2. cbn [remote_calls]. rewrite length_app. cbn [length].
        rewrite <- He. f_equal. lia.
      * unfold st2. cbn [remote_calls]. rewrite length_app. cbn [length].
        rewrite <- Hok. f_equal. lia.
      * exists st'. rewrite Hrun. repeat split.
        -- rewrite Hcalls. unfold st2. cbn [remote_calls repeat].
           rewrite <- app_assoc. reflexivity.
        -- rewrite Hsleeps. unfold st2. cbn [sleeps seq map].
           rewrite <- app_assoc. reflexivity.
Qed.
End RetryAroundCall.

(** The decorator around a bare remote call, which is what it is there for:
    with [stop_after_attempt(3)] and the policy of the application, a call
    that fails [k] times (at most twice) and then answers is made [k + 1]
    times with a sleep of 4 seconds before each new attempt, and its answer
    is returned; a call that fails three times is made three times, with
    two sleeps of 4 seconds, and [RetryError] carries the last exception. *)
Theorem retry_around_a_bare_call (model : Remote) (req : request) (st : state) :
  (forall (k : nat) (t : str),
     (k <= 2)%nat ->
     (forall i, (i < k)%nat ->
        exists e, model (length (remote_calls st) + i)%nat req = Fails e) ->
     model (length (remote_calls st) + k)%nat req = Text t ->
     exists st',
       retry 3 (wait_exponential 1 4 10) (generate_content model req) st =
       (Returned t, st')
       /\ remote_calls st' = remote_calls st ++ repeat req (S k)
       /\ sleeps st' = sleeps st ++ repeat 4%Z k)
  /\ ((forall i, (i <= 2)%nat ->
         exists e, model (length (remote_calls st) + i)%nat req = Fails e) ->
      exists e st',
        retry 3 (wait_exponential 1 4 10) (generate_content model req) st =
        (Raised (RetryError e), st')
        /\ model (length (remote_calls st) + 2)%nat req = Fails e
        /\ remote_calls st' = remote_calls st ++ [req; req; req]
        /\ sleeps st' = sleeps st ++ [4%Z; 4%Z]).
Proof.
  split.
  - intros k t Hk Hfail Hok. unfold retry. cbn [Nat.pred].
    destruct (attempt_first_success model req (wait_exponential 1 4 10) 2 1 k t st
                Hk Hfail Hok) as (st' & Hrun & Hcalls & Hsleeps).
    exists st'. split; [exact Hrun|]. split; [exact Hcalls|].
    rewrite Hsleeps. f_equal.
    destruct k as [|[|[|k]]]; try reflexivity. lia.
  - intros Hfail. unfold retry. cbn [Nat.pred].
    destruct (attempt_all_fail model req (wait_exponential 1 4 10) 2 1 st Hfail)
      as (e & st' & Hrun & He & Hcalls & Hsleeps).
    exists e, st'. repeat split; assumption.
Qed.

Lemma retry_around_a_bare_call_witness :
  exists st',
    retry 3 (wait_exponential 1 4 10)
      (generate_content
         (scripted [Fails (RemoteError (lit "timeout")); Text (lit "Prose.")])
         (sentiment_request (lit "hello")))
      initial_state = (Returned (lit "Prose."), st')
    /\ length (remote_calls st') = 2%nat
    /\ sleeps st' = [4%Z].
Proof.
  destruct (retry_around_a_bare_call
              (scripted [Fails (RemoteError (lit "timeout")); Text (lit "Prose.")])
              (sentiment_request (lit "hello")) initial_state) as [Hok _].
  destruct (Hok 1%nat (lit "Prose.")) as (st' & Hrun & Hcalls & Hsleeps).
  - lia.
  - intros i Hi. assert (i = O) as -> by lia. eexists. reflexivity.
  - reflexivity.
  - exists st'. split; [exact Hrun|]. rewrite Hcalls, Hsleeps. split; reflexivity.
Defined.
